(** * University Admission Management System: the admission workflow of main.py

    A shallow embedding of the Flask views of [main.py]: those that read or
    write the [departments], [applications] and [allocations] tables, the
    sign-up and sign-in views over the [students] and [admins] tables, and
    the remaining pages; followed by the properties of the seat ledger, the
    review transition, the merit listings, the documents and the accounts.

    Conventions of the embedding.
    - A table is the list of its rows in insertion order; an UPDATE issued by
      the ORM for a modified object rewrites the rows that carry the object's
      primary key, in place.
    - A serial primary key comes from a per-table counter kept in the database
      record.
    - [Query.first()] is the head of the selected rows.
    - A view returns an [outcome]: either it returned a response, and then the
      database it left behind is the one it committed (or the one it was
      given, when it wrote nothing), or an exception escaped it; the session
      is then discarded with its pending changes and the database stays as it
      was ([database_after]).
    - Form values are taken as text, and as the integer they denote for the
      [Integer] columns; what a column refuses (an integer outside 32 bits, a
      string that does not fit its 200 characters) makes the commit raise,
      and nothing of the request is stored. *)

From Stdlib Require Import ZArith List String Ascii Bool Lia.
From Stdlib Require Import Sorting.Sorted Sorting.Permutation.
Import ListNotations.

Local Open Scope string_scope.
Local Open Scope list_scope.
Local Open Scope Z_scope.

(** ** Database models *)

Module Application.
Record t := mk {
  application_id : Z;
  student_id : Z;
  student_name : string;
  student_gender : string;
  student_email : string;
  student_age : Z;
  department : string;
  entrance_marks : Z;
  percentage_10th : Z;
  percentage_12th : Z;
  document_status : string;
  documents : list Byte.byte
}.

(** [application.document_status = status] *)
Definition set_document_status (status : string) (a : t) : t :=
  mk (application_id a) (student_id a) (student_name a) (student_gender a)
     (student_email a) (student_age a) (department a) (entrance_marks a)
     (percentage_10th a) (percentage_12th a) status (documents a).
End Application.

Module Allocation.
Record t := mk {
  allocation_id : Z;
  application_id : Z;
  department_id : Z;
  allocation_status : string
}.
End Allocation.

Module Department.
Record t := mk {
  department_id : Z;
  department_name : string;
  total_seats : Z;
  filled_seats : Z
}.

(** [department.filled_seats = n] *)
Definition set_filled_seats (n : Z) (d : t) : t :=
  mk (department_id d) (department_name d) (total_seats d) n.
End Department.

Record database := mkdb {
  applications : list Application.t;
  allocations : list Allocation.t;
  departments : list Department.t;
  applications_serial : Z;
  allocations_serial : Z;
  departments_serial : Z
}.

(** The database after [db.create_all()]: empty tables, serials at 1. *)
Definition empty_database : database := mkdb [] [] [] 1 1 1.

(** ** What the columns store *)

(** An [Integer] column holds 32 bits. *)
Definition int4 (v : Z) : bool :=
  (-2147483648 <=? v) && (v <=? 2147483647).

(** The database driver refuses a string parameter with a NUL character. *)
Fixpoint has_nul (s : string) : bool :=
  match s with
  | EmptyString => false
  | String c s' => Ascii.eqb c Ascii.zero || has_nul s'
  end.

Fixpoint only_spaces (s : string) : bool :=
  match s with
  | EmptyString => true
  | String c s' => Ascii.eqb c " "%char && only_spaces s'
  end.

(** A [String(n)] column stores a string of at most [n] characters as it is,
    a longer one cut to [n] characters when the excess is spaces only, and
    refuses any other.  A character is one [ascii] of the string. *)
Definition fit (n : nat) (s : string) : option string :=
  if (String.length s <=? n)%nat then Some s
  else if only_spaces (substring n (String.length s - n) s)
       then Some (substring 0 n s)
       else None.

(** ** Queries and writes *)

Definition first {A : Type} (rows : list A) : option A :=
  match rows with
  | [] => None
  | row :: _ => Some row
  end.

(** [Application.query.filter_by(student_id=...)] *)
Definition applications_of_student (student_id : Z) (db : database) : list Application.t :=
  filter (fun a => Application.student_id a =? student_id) (applications db).

(** [Department.query.filter_by(department_name=...)] *)
Definition departments_named (name : string) (db : database) : list Department.t :=
  filter (fun d => String.eqb (Department.department_name d) name) (departments db).

(** [Allocation.query.filter_by(application_id=...)] *)
Definition allocations_of_application (application_id : Z) (db : database) : list Allocation.t :=
  filter (fun al => Allocation.application_id al =? application_id) (allocations db).

(** [db.session.add(Department(...))] *)
Definition add_department (name : string) (total filled : Z) (db : database) : database :=
  mkdb (applications db) (allocations db)
       (departments db ++ [Department.mk (departments_serial db) name total filled])
       (applications_serial db) (allocations_serial db) (departments_serial db + 1).

(** [db.session.add(Allocation(...))] *)
Definition add_allocation (application_id department_id : Z) (status : string)
    (db : database) : database :=
  mkdb (applications db)
       (allocations db ++ [Allocation.mk (allocations_serial db) application_id department_id status])
       (departments db)
       (applications_serial db) (allocations_serial db + 1) (departments_serial db).

(** [db.session.add(application)]: the row takes the next serial. *)
Definition add_application (row : Z -> Application.t) (db : database) : database :=
  mkdb (applications db ++ [row (applications_serial db)])
       (allocations db) (departments db)
       (applications_serial db + 1) (allocations_serial db) (departments_serial db).

(** The UPDATE for [application.document_status = status]. *)
Definition update_document_status (application : Application.t) (status : string)
    (db : database) : database :=
  mkdb (map (fun a => if Application.application_id a =? Application.application_id application
                      then Application.set_document_status status a else a)
            (applications db))
       (allocations db) (departments db)
       (applications_serial db) (allocations_serial db) (departments_serial db).

(** The UPDATE for [department.filled_seats += 1]: the new value is computed
    from the loaded object. *)
Definition increment_filled_seats (department : Department.t) (db : database) : database :=
  mkdb (applications db) (allocations db)
       (map (fun d => if Department.department_id d =? Department.department_id department
                      then Department.set_filled_seats (Department.filled_seats department + 1) d
                      else d)
            (departments db))
       (applications_serial db) (allocations_serial db) (departments_serial db).

(** ** Mail *)

Record Message := mkmsg {
  subject : string;
  recipients : list string;
  body : string
}.

(** The mail server as the view sees it: [mail.send msg] returns ([true]) or
    raises ([false]). *)
Definition mailer := Message -> bool.

(** [try: mail.send(msg) except: pass]; the result is what was delivered. *)
Definition try_send (mail : mailer) (msg : Message) : list Message :=
  if mail msg then [msg] else [].

(** ** Sessions, responses and outcomes *)

(** [session]: the signed-in student ([student_id], [student_username]) and the
    signed-in admin ([admin_id], [admin_username]); the sign-in views set both
    keys of a pair together and [logout] clears everything. *)
Record session := mksession {
  student : option (Z * string);
  admin : option (Z * string)
}.

Inductive exception :=
| AttributeError (attribute : string)   (* 'NoneType' object has no attribute ... *)
| KeyError (key : string)
| DataError                             (* the database refuses a value *)
| ValueError.                           (* the driver refuses a NUL character *)

(** A string on its way into a [String(200)] column: the value stored, or
    the exception of the statement. *)
Definition stored_text (s : string) : exception + string :=
  if has_nul s then inl ValueError
  else match fit 200 s with
       | Some s' => inr s'
       | None => inl DataError
       end.

Inductive context :=
| no_context
| approve_documents_context (admin_name : string) (students : list Application.t)
| merit_list_context (department : option Department.t) (students : list Application.t)
| application_status_context (student_name document_status allocation_status : string).

Inductive response :=
| redirect (endpoint : string)
| render_template (template : string) (ctx : context).

Inductive outcome :=
| Returned (db : database) (flashed : list (string * string)) (sent : list Message)
    (r : response)
| Raised (e : exception) (sent : list Message).

(** The database a request leaves behind. *)
Definition database_after (db : database) (o : outcome) : database :=
  match o with
  | Returned db' _ _ _ => db'
  | Raised _ _ => db
  end.

Definition mails_of (o : outcome) : list Message :=
  match o with
  | Returned _ _ sent _ => sent
  | Raised _ sent => sent
  end.

(** ** Authentication decorators *)

Definition student_signin_required (view : session -> database -> outcome)
    (s : session) (db : database) : outcome :=
  match student s with
  | None => Returned db [("Please SignIn to continue", "danger")] [] (redirect "home")
  | Some _ => view s db
  end.

Definition admin_signin_required (view : session -> database -> outcome)
    (s : session) (db : database) : outcome :=
  match admin s with
  | None => Returned db [("Please SignIn to continue", "danger")] [] (redirect "home")
  | Some _ => view s db
  end.

(** ** Views *)

(** [/home] *)
Definition home (db : database) : outcome :=
  match departments db with
  | [] =>
      Returned
        (add_department "Civil" 100 0
          (add_department "Mechanical" 100 0
            (add_department "CS" 300 0 db)))
        [] [] (render_template "home.html" no_context)
  | _ :: _ => Returned db [] [] (render_template "home.html" no_context)
  end.

(** [request.form] and [request.files] of the application form. *)
Module Form.
Record t := mk {
    name : string;
    age : Z;
    gender : string;
    email : string;
    department : string;
    entrance_score : Z;
    percentage_10 : Z;
    percentage_12 : Z;
    documents : list Byte.byte
  }.
End Form.

Definition new_application (student_id : Z) (form : Form.t) (application_id : Z)
    : Application.t :=
  Application.mk application_id student_id (Form.name form) (Form.gender form)
    (Form.email form) (Form.age form) (Form.department form)
    (Form.entrance_score form) (Form.percentage_10 form) (Form.percentage_12 form)
    "Pending" (Form.documents form).

(** The INSERT of [db.session.commit()] for a new application: the form as
    the columns store it, or the exception the commit raises. *)
Definition stored_form (student_id : Z) (form : Form.t) : exception + Form.t :=
  if has_nul (Form.name form) || has_nul (Form.gender form)
     || has_nul (Form.email form) || has_nul (Form.department form)
  then inl ValueError
  else
    match fit 200 (Form.name form), fit 200 (Form.gender form),
          fit 200 (Form.email form), fit 200 (Form.department form) with
    | Some name, Some gender, Some email, Some department =>
        if int4 student_id && int4 (Form.age form) && int4 (Form.entrance_score form)
           && int4 (Form.percentage_10 form) && int4 (Form.percentage_12 form)
        then inr (Form.mk name (Form.age form) gender email department
                    (Form.entrance_score form) (Form.percentage_10 form)
                    (Form.percentage_12 form) (Form.documents form))
        else inl DataError
    | _, _, _, _ => inl DataError
    end.

(** The forms every column takes as submitted: strings without NUL of at most
    200 characters, integers of 32 bits. *)
Definition fits_columns (student_id : Z) (form : Form.t) : bool :=
  negb (has_nul (Form.name form)) && negb (has_nul (Form.gender form))
  && negb (has_nul (Form.email form)) && negb (has_nul (Form.department form))
  && (String.length (Form.name form) <=? 200)%nat
  && (String.length (Form.gender form) <=? 200)%nat
  && (String.length (Form.email form) <=? 200)%nat
  && (String.length (Form.department form) <=? 200)%nat
  && int4 student_id && int4 (Form.age form) && int4 (Form.entrance_score form)
  && int4 (Form.percentage_10 form) && int4 (Form.percentage_12 form).

(** [/application-form]; [post] is the submitted form of a POST, [None] for GET. *)
Definition application_form (post : option Form.t) (s : session) (db : database)
    : outcome :=
  match student s with
  | None => Raised (KeyError "student_id") []
  | Some (student_id, _) =>
      match first (applications_of_student student_id db) with
      | Some _ =>
          Returned db [("You can submit only one application.", "danger")] []
            (redirect "student_dashboard")
      | None =>
          match post with
          | Some form =>
              match stored_form student_id form with
              | inr stored =>
                  Returned (add_application (new_application student_id stored) db)
                    [("Application submitted successfully.", "success")] []
                    (redirect "student_dashboard")
              | inl e => Raised e []
              end
          | None => Returned db [] [] (render_template "application_form.html" no_context)
          end
      end
  end.

(** [/application-status] *)
Definition application_status (s : session) (db : database) : outcome :=
  match student s with
  | None => Raised (KeyError "student_id") []
  | Some (student_id, _) =>
      match first (applications_of_student student_id db) with
      | None =>
          Returned db [("Please fill the application form first.", "danger")] []
            (redirect "student_dashboard")
      | Some application =>
          let pending := "Document verification is pending" in
          let allocation_status :=
            if String.eqb (Application.document_status application) "Rejected"
            then "Documents not verified"
            else if String.eqb (Application.document_status application) "Approved"
            then match first (allocations_of_application
                                (Application.application_id application) db) with
                 | Some allocation => Allocation.allocation_status allocation
                 | None => pending
                 end
            else pending in
          Returned db [] []
            (render_template "application_status.html"
               (application_status_context (Application.student_name application)
                  (Application.document_status application) allocation_status))
      end
  end.

(** ** Ordering of the merit listings *)

(** One [column.desc()] of an [order_by], followed by the rest of the chain:
    [a] may precede [b] when its column is larger, or equal with the rest of
    the chain agreeing. *)
Definition desc (column : Application.t -> Z)
    (rest : Application.t -> Application.t -> bool) (a b : Application.t) : bool :=
  (column b <? column a) || ((column a =? column b) && rest a b).

(** [order_by(entrance_marks.desc(), percentage_12th.desc(),
    percentage_10th.desc(), student_age.desc())] *)
Definition merit_order : Application.t -> Application.t -> bool :=
  desc Application.entrance_marks
    (desc Application.percentage_12th
      (desc Application.percentage_10th
        (desc Application.student_age (fun _ _ => true)))).

Fixpoint insert_row (le : Application.t -> Application.t -> bool)
    (row : Application.t) (sorted : list Application.t) : list Application.t :=
  match sorted with
  | [] => [row]
  | r :: sorted' =>
      if le row r then row :: r :: sorted' else r :: insert_row le row sorted'
  end.

(** ORDER BY as a stable insertion sort.  The database leaves the order of
    rows with equal keys open; here they keep the order of the table. *)
Definition order_by (le : Application.t -> Application.t -> bool)
    (rows : list Application.t) : list Application.t :=
  fold_right (insert_row le) [] rows.

(** A query for one mapped entity returns each entity once: joined rows that
    carry an already seen primary key are dropped, the first one is kept. *)
Fixpoint unique_entities (seen : list Z) (rows : list Application.t)
    : list Application.t :=
  match rows with
  | [] => []
  | a :: rows' =>
      if existsb (Z.eqb (Application.application_id a)) seen
      then unique_entities seen rows'
      else a :: unique_entities (Application.application_id a :: seen) rows'
  end.

(** The pending-review listing of [/approve-documents]; a selection from one
    table has one row per primary key already. *)
Definition pending_by_merit (db : database) : list Application.t :=
  order_by merit_order
    (filter (fun a => String.eqb (Application.document_status a) "Pending")
            (applications db)).

(** [Application.query.join(Allocation, Allocation.application_id ==
    Application.application_id)]: one row per matching pair. *)
Definition join_allocations (db : database) : list (Application.t * Allocation.t) :=
  flat_map
    (fun a =>
       map (fun al => (a, al))
           (filter (fun al => Allocation.application_id al =? Application.application_id a)
                   (allocations db)))
    (applications db).

(** The merit list of [/merit-list/<dept>]. *)
Definition allocated_by_merit (dept : string) (db : database) : list Application.t :=
  unique_entities []
    (order_by merit_order
       (map fst
          (filter (fun row => String.eqb (Application.department (fst row)) dept
                              && String.eqb (Allocation.allocation_status (snd row)) "Allocated")
                  (join_allocations db)))).

(** ** Admin views *)

Definition rejected_message (application : Application.t) : Message :=
  mkmsg "Documents Rejected" [Application.student_email application]
    "Your submitted documents have been rejected by the admissions office.".

Definition approved_message (application : Application.t) : Message :=
  mkmsg "Documents Approved" [Application.student_email application]
    "Your documents have been verified successfully.".

Definition offer_message (application : Application.t) : Message :=
  mkmsg "Admission Offer" [Application.student_email application]
    ("You have been allotted a seat in the "
       ++ Application.department application ++ " department.")%string.

(** The UPDATE of [db.session.commit()] for [application.document_status =
    status]: none is issued for the value the row already has; otherwise the
    status goes into a [String(200)] column. *)
Definition stored_status (application : Application.t) (status : string)
    : exception + string :=
  if String.eqb status (Application.document_status application)
  then inr status
  else stored_text status.

(** [/approve-documents]; [post] is the pair ([student_id], [status]) of a
    POST form, [None] for GET. *)
Definition approve_documents (mail : mailer) (post : option (Z * string))
    (s : session) (db : database) : outcome :=
  match post with
  | Some (student_id, status) =>
      match first (applications_of_student student_id db) with
      | None => Raised (AttributeError "department") []
      | Some application =>
          let department :=
            first (departments_named (Application.department application) db) in
          let db1 := update_document_status application status db in
          if String.eqb status "Rejected" then
            Returned db1 [] (try_send mail (rejected_message application))
              (redirect "approve_documents")
          else if String.eqb status "Approved" then
            let sent := try_send mail (approved_message application) in
            match department with
            | None => Raised (AttributeError "filled_seats") sent
            | Some department =>
                if Department.filled_seats department <? Department.total_seats department
                then
                  Returned
                    (add_allocation (Application.application_id application)
                       (Department.department_id department) "Allocated"
                       (increment_filled_seats department db1))
                    [] (sent ++ try_send mail (offer_message application))
                    (redirect "approve_documents")
                else
                  Returned
                    (add_allocation (Application.application_id application)
                       (Department.department_id department) "Not Allocated" db1)
                    [] sent (redirect "approve_documents")
            end
          else
            (* any other status: the commit alone, whose UPDATE the column
               may refuse *)
            match stored_status application status with
            | inr stored =>
                Returned (update_document_status application stored db) [] []
                  (redirect "approve_documents")
            | inl e => Raised e []
            end
      end
  | None =>
      let students := pending_by_merit db in
      match admin s with
      | None => Raised (KeyError "admin_username") []
      | Some (_, admin_name) =>
          Returned db [] []
            (render_template "approve_documents.html"
               (approve_documents_context admin_name students))
      end
  end.

(** [/merit-list/<dept>] *)
Definition department_merit (dept : string) (s : session) (db : database) : outcome :=
  let department := first (departments_named dept db) in
  let students := allocated_by_merit dept db in
  Returned db [] [] (render_template "merit_list.html" (merit_list_context department students)).

(** ** Requests and reachable databases *)

Inductive request :=
| home_request
| application_form_request (post : option Form.t)
| application_status_request
| approve_documents_request (post : option (Z * string))
| department_merit_request (dept : string).

(** The URL map, with the decorators of each view. *)
Definition handle (mail : mailer) (s : session) (req : request) (db : database)
    : outcome :=
  match req with
  | home_request => home db
  | application_form_request post =>
      student_signin_required (application_form post) s db
  | application_status_request =>
      student_signin_required application_status s db
  | approve_documents_request post =>
      admin_signin_required (approve_documents mail post) s db
  | department_merit_request dept =>
      admin_signin_required (department_merit dept) s db
  end.

(** The databases reachable from the empty one by requests that satisfy
    [allowed]; the remaining views of the application (sign-up, sign-in,
    dashboards, document download, logout) write none of the three tables. *)
Inductive reachable_by (allowed : database -> request -> Prop) : database -> Prop :=
| reachable_empty : reachable_by allowed empty_database
| reachable_step db mail s req :
    reachable_by allowed db ->
    allowed db req ->
    reachable_by allowed (database_after db (handle mail s req db)).

Definition reachable : database -> Prop := reachable_by (fun _ _ => True).

(** A review with a decision other than [Approved] is posted only for an
    application that owns no allocation. *)
Definition reviews_spare_allocated (db : database) (req : request) : Prop :=
  match req with
  | approve_documents_request (Some (student_id, status)) =>
      status = "Approved"
      \/ match first (applications_of_student student_id db) with
         | Some application =>
             filter (fun al => Allocation.application_id al
                               =? Application.application_id application)
                    (allocations db) = []
         | None => True
         end
  | _ => True
  end.

(** The number of [Allocated] allocations that reference a department. *)
Definition allocated_count (department_id : Z) (db : database) : Z :=
  Z.of_nat
    (List.length
       (filter (fun al => (Allocation.department_id al =? department_id)
                          && String.eqb (Allocation.allocation_status al) "Allocated")
               (allocations db))).

(** The number of allocations an application owns. *)
Definition allocations_owned (application : Application.t) (db : database) : nat :=
  List.length (allocations_of_application (Application.application_id application) db).

(** The database a posted review leaves behind. *)
Definition reviewed (mail : mailer) (student_id : Z) (status : string)
    (s : session) (db : database) : database :=
  database_after db (approve_documents mail (Some (student_id, status)) s db).

(** ** The invariant of reachable databases *)

Record consistent (db : database) : Prop := {
  department_ids_unique :
    NoDup (map Department.department_id (departments db));
  department_ids_issued :
    forall d, In d (departments db) -> Department.department_id d < departments_serial db;
  application_ids_unique :
    NoDup (map Application.application_id (applications db));
  application_ids_issued :
    forall a, In a (applications db) -> Application.application_id a < applications_serial db;
  one_application_per_student :
    NoDup (map Application.student_id (applications db));
  seats_bounded :
    forall d, In d (departments db) -> Department.filled_seats d <= Department.total_seats d;
  seats_counted :
    forall d, In d (departments db) ->
      Department.filled_seats d = allocated_count (Department.department_id d) db;
  allocations_reference_departments :
    forall al, In al (allocations db) ->
      In (Allocation.department_id al) (map Department.department_id (departments db));
  allocations_reference_applications :
    forall al, In al (allocations db) ->
      In (Allocation.application_id al) (map Application.application_id (applications db));
  approved_is_allocated :
    forall a, In a (applications db) -> Application.document_status a = "Approved" ->
      In (Application.department a) (map Department.department_name (departments db))
      /\ In (Application.application_id a) (map Allocation.application_id (allocations db))
}.

(** How a request may change the row of a department: not at all, by creating
    it with no seat filled at bootstrap, or by filling one seat that was free. *)
Definition seat_change (db : database) (d' : Department.t) : Prop :=
  In d' (departments db)
  \/ (departments db = [] /\ Department.filled_seats d' = 0)
  \/ exists d, In d (departments db)
       /\ Department.department_id d' = Department.department_id d
       /\ Department.department_name d' = Department.department_name d
       /\ Department.total_seats d' = Department.total_seats d
       /\ Department.filled_seats d < Department.total_seats d
       /\ Department.filled_seats d' = Department.filled_seats d + 1.

(** Every allocation references an application whose documents are approved. *)
Definition allocations_reference_approved (db : database) : Prop :=
  forall al, In al (allocations db) ->
    exists a, In a (applications db)
      /\ Application.application_id a = Allocation.application_id al
      /\ Application.document_status a = "Approved".

(** The same, row by row: an application that an allocation references is
    approved. *)
Definition referenced_are_approved (db : database) : Prop :=
  forall al a, In al (allocations db) -> In a (applications db) ->
    Application.application_id a = Allocation.application_id al ->
    Application.document_status a = "Approved".

(** Approving an application that is already approved or rejected returns and
    leaves the application with a second allocation. *)
Definition re_review_adds_second_allocation : Prop :=
  forall mail s db student_id a,
    reachable db ->
    first (applications_of_student student_id db) = Some a ->
    Application.document_status a = "Approved"
    \/ Application.document_status a = "Rejected" ->
    exists db' flashed sent r,
      approve_documents mail (Some (student_id, "Approved")) s db
        = Returned db' flashed sent r
      /\ (2 <= allocations_owned a db')%nat.

(** The ranking in the words of the specification: the key is
    ([entrance_marks], [percentage_12th], [percentage_10th], [student_age]),
    each compared descending, and the first attribute that differs decides;
    [a] is ranked before [b], or tied with it. *)
Definition first_difference_decides (a b : Application.t) : Prop :=
  Application.entrance_marks b < Application.entrance_marks a
  \/ (Application.entrance_marks a = Application.entrance_marks b
      /\ (Application.percentage_12th b < Application.percentage_12th a
          \/ (Application.percentage_12th a = Application.percentage_12th b
              /\ (Application.percentage_10th b < Application.percentage_10th a
                  \/ (Application.percentage_10th a = Application.percentage_10th b
                      /\ Application.student_age b <= Application.student_age a))))).

(** A listing is ranked when each row may precede every later row. *)
Definition ranked (rows : list Application.t) : Prop :=
  StronglySorted (fun a b => merit_order a b = true) rows.

(** What a view did, whatever became of its mails. *)
Definition forget_mails (o : outcome) : outcome :=
  match o with
  | Returned db flashed _ r => Returned db flashed [] r
  | Raised e _ => Raised e []
  end.

(** ** Sample runs *)

Definition delivers : mailer := fun _ => true.
Definition bounces : mailer := fun _ => false.

(** Every submission of a student without application returns and stores one
    pending application. *)
Definition first_submission_always_stores : Prop :=
  forall db student_id username adm form,
    reachable db ->
    (forall a, In a (applications db) -> Application.student_id a <> student_id) ->
    exists db' application,
      handle delivers (mksession (Some (student_id, username)) adm)
        (application_form_request (Some form)) db
      = Returned db' [("Application submitted successfully.", "success")] []
          (redirect "student_dashboard")
      /\ applications db' = applications db ++ [application]
      /\ Application.document_status application = "Pending".

Definition admin_session : session := mksession None (Some (1, "admin")).
Definition student_session (student_id : Z) : session :=
  mksession (Some (student_id, "student")) None.

Definition sample_form (department : string) (marks p12 p10 age : Z) : Form.t :=
  Form.mk "Asha" age "F" "asha@example.org" department marks p10 p12 [].

(** A sequence of requests, each with its session, served in order. *)
Definition serve (requests : list (session * request)) (db : database) : database :=
  fold_left (fun db sr => database_after db (handle delivers (fst sr) (snd sr) db))
            requests db.

(** Every request of the sequence is allowed in the database it is served in. *)
Fixpoint all_allowed (allowed : database -> request -> Prop)
    (requests : list (session * request)) (db : database) : Prop :=
  match requests with
  | [] => True
  | sr :: requests' =>
      allowed db (snd sr)
      /\ all_allowed allowed requests'
           (database_after db (handle delivers (fst sr) (snd sr) db))
  end.

(** Bootstrap, one application for CS, approved: one seat is taken. *)
Definition approved_once : database :=
  serve [ (student_session 7, home_request);
          (student_session 7,
           application_form_request (Some (sample_form "CS" 80 70 60 20)));
          (admin_session, approve_documents_request (Some (7, "Approved"))) ]
        empty_database.

(** The same application reviewed again, now rejected. *)
Definition approved_then_rejected : database :=
  serve [ (admin_session, approve_documents_request (Some (7, "Rejected"))) ]
        approved_once.

(** Two applications; the second is rejected and then approved, the first is
    approved twice. *)
Definition reviewed_again : database :=
  serve [ (student_session 7, home_request);
          (student_session 7,
           application_form_request (Some (sample_form "CS" 80 70 60 20)));
          (student_session 8,
           application_form_request (Some (sample_form "CS" 95 90 90 21)));
          (admin_session, approve_documents_request (Some (8, "Rejected")));
          (admin_session, approve_documents_request (Some (8, "Approved")));
          (admin_session, approve_documents_request (Some (7, "Approved")));
          (admin_session, approve_documents_request (Some (7, "Approved"))) ]
        empty_database.

(** Bootstrap, one application for CS, rejected. *)
Definition rejected_once : database :=
  serve [ (student_session 7, home_request);
          (student_session 7,
           application_form_request (Some (sample_form "CS" 80 70 60 20)));
          (admin_session, approve_documents_request (Some (7, "Rejected"))) ]
        empty_database.

(** Two pending applications for a department with a single free seat; the
    second has the better merit key. *)
Definition last_seat : database :=
  mkdb [ new_application 7 (sample_form "CS" 80 70 60 20) 1;
         new_application 8 (sample_form "CS" 95 90 90 21) 2 ]
       []
       [ Department.mk 1 "CS" 1 0 ]
       3 1 2.

(** The two records of the ranking example, in table order. *)
Definition ranking_example : database :=
  mkdb [ new_application 7 (sample_form "CS" 80 70 60 20) 1;
         new_application 8 (sample_form "CS" 80 75 60 19) 2 ]
       [] [] 3 1 1.

(** Bootstrap, then one application for a department that does not exist. *)
Definition unknown_department : database :=
  serve [ (student_session 7, home_request);
          (student_session 7,
           application_form_request (Some (sample_form "Physics" 80 70 60 20))) ]
        empty_database.

(** ** The remaining pages *)

(** [/] *)
Definition transfer (db : database) : outcome :=
  Returned db [] [] (redirect "home").

(** [/admin-dashboard] *)
Definition admin_dashboard (s : session) (db : database) : outcome :=
  Returned db [] [] (render_template "admin_dashboard.html" no_context).

(** [/student-dashboard] *)
Definition student_dashboard (s : session) (db : database) : outcome :=
  Returned db [] [] (render_template "student_dashboard.html" no_context).

(** [/merit-list] *)
Definition merit_departments (s : session) (db : database) : outcome :=
  Returned db [] [] (render_template "departments.html" no_context).

(** What a route answers: a page as before, a raw [Response] with its body,
    or an HTTP error raised by [abort]. *)
Inductive answer :=
| page (o : outcome)
| document (body : list Byte.byte) (mimetype : string) (headers : list (string * string))
| abort (code : Z).

(** [/view-aadhaar/<int:student_id>] *)
Definition view_aadhaar (student_id : Z) (s : session) (db : database) : answer :=
  match first (applications_of_student student_id db) with
  | None => abort 404
  | Some application =>
      document (Application.documents application) "application/pdf"
        [("Content-Disposition", "inline")]
  end.

(** Every route that reads or writes the three tables, or none.  The first
    constructor stands for the routes of [handle]. *)
Inductive route :=
| handled (req : request)
| transfer_route
| admin_dashboard_route
| student_dashboard_route
| merit_departments_route
| view_aadhaar_route (student_id : Z).

(** The URL map, completed; [view_aadhaar] is under [admin_signin_required],
    written out at the type of its answer. *)
Definition visit (mail : mailer) (s : session) (r : route) (db : database) : answer :=
  match r with
  | handled req => page (handle mail s req db)
  | transfer_route => page (transfer db)
  | admin_dashboard_route => page (admin_signin_required admin_dashboard s db)
  | student_dashboard_route => page (student_signin_required student_dashboard s db)
  | merit_departments_route => page (admin_signin_required merit_departments s db)
  | view_aadhaar_route student_id =>
      match admin s with
      | None =>
          page (Returned db [("Please SignIn to continue", "danger")] [] (redirect "home"))
      | Some _ => view_aadhaar student_id s db
      end
  end.

(** The routes decorated with [admin_signin_required]. *)
Definition admin_only (r : route) : bool :=
  match r with
  | handled (approve_documents_request _) | handled (department_merit_request _) => true
  | admin_dashboard_route | merit_departments_route | view_aadhaar_route _ => true
  | _ => false
  end.

(** The routes decorated with [student_signin_required]. *)
Definition student_only (r : route) : bool :=
  match r with
  | handled (application_form_request _) | handled application_status_request => true
  | student_dashboard_route => true
  | _ => false
  end.

(** The answer of both decorators to a visitor who is not signed in. *)
Definition turned_away (db : database) : answer :=
  page (Returned db [("Please SignIn to continue", "danger")] [] (redirect "home")).

(** Requests served in order, each with its own mail server and session. *)
Definition run (requests : list (mailer * session * request)) (db : database) : database :=
  fold_left
    (fun db r => database_after db (handle (fst (fst r)) (snd (fst r)) (snd r) db))
    requests db.

(** An application with its document status blanked: the part of the row
    that the candidate submitted. *)
Definition submitted_part (a : Application.t) : Application.t :=
  Application.set_document_status "" a.

(** ** Accounts and sign-in *)

Module Student.
Record t := mk {
  student_id : Z;
  student_username : string;
  student_password_hash_hex : string
}.
End Student.

Module Admin.
Record t := mk {
  admin_id : Z;
  admin_username : string;
  admin_password : string
}.
End Admin.

(** The [students] and [admins] tables, with their serials. *)
Record accounts := mkaccounts {
  students : list Student.t;
  admins : list Admin.t;
  students_serial : Z;
  admins_serial : Z
}.

Definition no_accounts : accounts := mkaccounts [] [] 1 1.

(** [hashlib.sha256(password.encode()).hexdigest()], a parameter of the
    sign-in views. *)
Definition hasher := string -> string.

(** What a sign-in view leaves behind: the session cookie, the accounts it
    committed, the flashed messages and the response. *)
Record signed := mksigned {
  session_after : session;
  accounts_after : accounts;
  flashed_messages : list (string * string);
  reply : response
}.

(** [Student.query.filter_by(student_username=...)] *)
Definition students_named (username : string) (acc : accounts) : list Student.t :=
  filter (fun st => String.eqb (Student.student_username st) username) (students acc).

(** [Admin.query.filter_by(admin_username=...)] *)
Definition admins_named (username : string) (acc : accounts) : list Admin.t :=
  filter (fun ad => String.eqb (Admin.admin_username ad) username) (admins acc).

(** [db.session.add(student)] *)
Definition add_student (username hash_hex : string) (acc : accounts) : accounts :=
  mkaccounts (students acc ++ [Student.mk (students_serial acc) username hash_hex])
             (admins acc) (students_serial acc + 1) (admins_serial acc).

(** [db.session.add(default_admin)] *)
Definition add_admin (username password : string) (acc : accounts) : accounts :=
  mkaccounts (students acc)
             (admins acc ++ [Admin.mk (admins_serial acc) username password])
             (students_serial acc) (admins_serial acc + 1).

(** [/student-signin]; [post] is the pair ([username], [password]) of a POST
    form, [None] for GET. *)
Definition student_signin (sha256_hexdigest : hasher) (post : option (string * string))
    (s : session) (acc : accounts) : signed :=
  match post with
  | Some (username, password) =>
      let hashed_hex_password := sha256_hexdigest password in
      match first (students_named username acc) with
      | None =>
          mksigned s acc [("Invalid username", "danger")] (redirect "student_signin")
      | Some st =>
          if negb (String.eqb hashed_hex_password (Student.student_password_hash_hex st))
          then mksigned s acc [("Invalid Password", "danger")] (redirect "student_signin")
          else mksigned
                 (mksession (Some (Student.student_id st, Student.student_username st))
                            (admin s))
                 acc [] (redirect "student_dashboard")
      end
  | None => mksigned s acc [] (render_template "student_signin.html" no_context)
  end.

(** [/student-signup].  The driver refuses a NUL in the user name with the
    first query; the INSERT of the commit stores user name and hash as their
    [String(200)] columns take them, or raises. *)
Definition student_signup (sha256_hexdigest : hasher) (post : option (string * string))
    (s : session) (acc : accounts) : exception + signed :=
  match post with
  | Some (username, password) =>
      let hashed_hex_password := sha256_hexdigest password in
      if has_nul username then inl ValueError
      else
        match first (students_named username acc) with
        | Some _ =>
            inr (mksigned s acc [("User already exists", "danger")]
                   (redirect "student_signup"))
        | None =>
            if has_nul hashed_hex_password then inl ValueError
            else
              match fit 200 username, fit 200 hashed_hex_password with
              | Some stored_username, Some stored_hash =>
                  inr (mksigned s (add_student stored_username stored_hash acc)
                         [("Account Created, Sign In to continue", "success")]
                         (redirect "student_signin"))
              | _, _ => inl DataError
              end
        end
  | None => inr (mksigned s acc [] (render_template "student_signup.html" no_context))
  end.

(** [/admin-signin]: the default admin is inserted first, on GET as on POST. *)
Definition admin_signin (post : option (string * string)) (s : session)
    (acc : accounts) : signed :=
  let acc1 :=
    match first (admins_named "admin" acc) with
    | None => add_admin "admin" "12345" acc
    | Some _ => acc
    end in
  match post with
  | Some (username, password) =>
      match first (admins_named username acc1) with
      | None =>
          mksigned s acc1 [("Invalid username", "danger")] (redirect "admin_signin")
      | Some ad =>
          if negb (String.eqb password (Admin.admin_password ad))
          then mksigned s acc1 [("Invalid Password", "danger")] (redirect "admin_signin")
          else mksigned
                 (mksession (student s)
                            (Some (Admin.admin_id ad, Admin.admin_username ad)))
                 acc1 [] (redirect "admin_dashboard")
      end
  | None => mksigned s acc1 [] (render_template "admin_signin.html" no_context)
  end.

(** [/logout]: [session.clear()] *)
Definition logout (s : session) (acc : accounts) : signed :=
  mksigned (mksession None None) acc [("Logged out successfully", "success")]
    (redirect "home").

Inductive account_request :=
| student_signin_request (post : option (string * string))
| student_signup_request (post : option (string * string))
| admin_signin_request (post : option (string * string))
| logout_request.

Definition sign (sha256_hexdigest : hasher) (req : account_request) (s : session)
    (acc : accounts) : exception + signed :=
  match req with
  | student_signin_request post => inr (student_signin sha256_hexdigest post s acc)
  | student_signup_request post => student_signup sha256_hexdigest post s acc
  | admin_signin_request post => inr (admin_signin post s acc)
  | logout_request => inr (logout s acc)
  end.

(** The accounts an account request leaves behind: those it committed, or the
    ones it was given when an exception escaped. *)
Definition accounts_left (acc : accounts) (o : exception + signed) : accounts :=
  match o with
  | inr r => accounts_after r
  | inl _ => acc
  end.

(** The accounts reachable from the empty tables; the views of [handle] and
    [visit] write neither table. *)
Inductive reachable_accounts (sha256_hexdigest : hasher) : accounts -> Prop :=
| reachable_no_accounts : reachable_accounts sha256_hexdigest no_accounts
| reachable_sign acc req s :
    reachable_accounts sha256_hexdigest acc ->
    reachable_accounts sha256_hexdigest
      (accounts_left acc (sign sha256_hexdigest req s acc)).

(** The identity, name and capacity of a department: what no view assigns
    after creation. *)
Definition fixed_part (d : Department.t) : Z * string * Z :=
  (Department.department_id d, Department.department_name d, Department.total_seats d).

(** The departments created by [home]. *)
Definition bootstrap_departments : list (Z * string * Z) :=
  [ (1, "CS", 300); (2, "Mechanical", 100); (3, "Civil", 100) ].

(** The capacity behind a department id. *)
Definition capacity (department_id : Z) : Z :=
  if department_id =? 1 then 300
  else if department_id =? 2 then 100
  else if department_id =? 3 then 100
  else 0.

(** An application form with a four-byte upload. *)
Definition sample_upload : Form.t :=
  Form.mk "Asha" 20 "F" "asha@example.org" "CS" 80 60 70
    [Byte.x25; Byte.x50; Byte.x44; Byte.x46].

(** Account requests served in order, each with the session it comes with;
    the result is the accounts left behind. *)
Definition sign_all (sha256_hexdigest : hasher)
    (requests : list (account_request * session)) (acc : accounts) : accounts :=
  fold_left (fun acc r => accounts_left acc (sign sha256_hexdigest (fst r) (snd r) acc))
            requests acc.

(** A user name of 201 characters that ends in a space. *)
Definition long_name : string :=
  (string_of_list_ascii (repeat "a"%char 200) ++ " ")%string.

(** A stand-in for the hash in sample runs. *)
Definition sample_hash : hasher := fun password => ("sha256:" ++ password)%string.

(** * Properties *)

(** ** Lists, queries and writes *)

Lemma first_filter_Some {A : Type} (p : A -> bool) (rows : list A) (row : A) :
  first (filter p rows) = Some row -> In row rows /\ p row = true.
Proof.
  intros H. assert (Hin : In row (filter p rows)).
  { destruct (filter p rows); inversion H; subst; now left. }
  now apply filter_In in Hin.
Qed.

Lemma first_filter_None {A : Type} (p : A -> bool) (rows : list A) :
  first (filter p rows) = None -> forall row, In row rows -> p row = false.
Proof.
  intros H row Hin. destruct (p row) eqn:Hp; [|reflexivity].
  assert (Hf : In row (filter p rows)) by (apply filter_In; auto).
  destruct (filter p rows); [contradiction | discriminate].
Qed.

Lemma first_filter_exists {A : Type} (p : A -> bool) (rows : list A) (row : A) :
  In row rows -> p row = true -> exists row', first (filter p rows) = Some row'.
Proof.
  intros Hin Hp. assert (Hf : In row (filter p rows)) by (apply filter_In; auto).
  destruct (filter p rows) as [|r l]; [contradiction | now exists r].
Qed.

(** The head of the selected rows survives an in-place rewrite that keeps the
    selection: it is the rewritten head. *)
Lemma first_filter_map {A : Type} (p : A -> bool) (f : A -> A) (rows : list A) :
  (forall row, p (f row) = p row) ->
  first (filter p (map f rows)) = option_map f (first (filter p rows)).
Proof.
  intros Hp. induction rows as [|r rows IH]; simpl; [reflexivity|].
  rewrite Hp. destruct (p r); [reflexivity | exact IH].
Qed.

Lemma NoDup_map_eq {A B : Type} (f : A -> B) (rows : list A) (x y : A) :
  NoDup (map f rows) -> In x rows -> In y rows -> f x = f y -> x = y.
Proof.
  induction rows as [|r rows IH]; simpl; [contradiction|].
  intros Hnd Hx Hy Hf. inversion Hnd as [|? ? Hnotin Hnd']; subst.
  destruct Hx as [->|Hx], Hy as [->|Hy]; auto.
  - exfalso. apply Hnotin. rewrite Hf. now apply in_map.
  - exfalso. apply Hnotin. rewrite <- Hf. now apply in_map.
Qed.

Lemma NoDup_snoc {A : Type} (l : list A) (x : A) :
  NoDup l -> ~ In x l -> NoDup (l ++ [x]).
Proof.
  intros Hnd Hx. induction Hnd as [|y l Hy Hnd IH]; simpl.
  - constructor; [intros [] | constructor].
  - constructor.
    + rewrite in_app_iff. intros [H|[H|[]]]; [contradiction|].
      subst. apply Hx. now left.
    + apply IH. intros H. apply Hx. now right.
Qed.

Lemma map_rewrite_key {A B : Type} (key : A -> B) (f : A -> A) (rows : list A) :
  (forall row, key (f row) = key row) -> map key (map f rows) = map key rows.
Proof.
  intros H. rewrite map_map. apply map_ext. exact H.
Qed.

Lemma update_document_status_ids a status db :
  map Application.application_id (applications (update_document_status a status db))
  = map Application.application_id (applications db).
Proof.
  apply map_rewrite_key. intros row. now destruct (_ =? _).
Qed.

Lemma update_document_status_students a status db :
  map Application.student_id (applications (update_document_status a status db))
  = map Application.student_id (applications db).
Proof.
  apply map_rewrite_key. intros row. now destruct (_ =? _).
Qed.

Lemma increment_filled_seats_ids d db :
  map Department.department_id (departments (increment_filled_seats d db))
  = map Department.department_id (departments db).
Proof.
  apply map_rewrite_key. intros row. now destruct (_ =? _).
Qed.

Lemma increment_filled_seats_names d db :
  map Department.department_name (departments (increment_filled_seats d db))
  = map Department.department_name (departments db).
Proof.
  apply map_rewrite_key. intros row. now destruct (_ =? _).
Qed.

(** A row of the updated table is the rewritten image of a row of the old one. *)
Lemma in_update_document_status a status db row' :
  In row' (applications (update_document_status a status db)) ->
  exists row, In row (applications db)
    /\ Application.application_id row' = Application.application_id row
    /\ Application.student_id row' = Application.student_id row
    /\ Application.department row' = Application.department row
    /\ ((Application.application_id row = Application.application_id a
         /\ Application.document_status row' = status)
        \/ (Application.application_id row <> Application.application_id a
            /\ row' = row)).
Proof.
  simpl. rewrite in_map_iff. intros [row [Heq Hin]]. exists row.
  destruct (Application.application_id row =? Application.application_id a) eqn:E;
    subst row'; simpl.
  - apply Z.eqb_eq in E. repeat split; auto.
  - apply Z.eqb_neq in E. repeat split; auto.
Qed.

Lemma in_increment_filled_seats d db row' :
  In row' (departments (increment_filled_seats d db)) ->
  exists row, In row (departments db)
    /\ Department.department_id row' = Department.department_id row
    /\ Department.department_name row' = Department.department_name row
    /\ Department.total_seats row' = Department.total_seats row
    /\ ((Department.department_id row = Department.department_id d
         /\ Department.filled_seats row' = Department.filled_seats d + 1)
        \/ (Department.department_id row <> Department.department_id d
            /\ row' = row)).
Proof.
  simpl. rewrite in_map_iff. intros [row [Heq Hin]]. exists row.
  destruct (Department.department_id row =? Department.department_id d) eqn:E;
    subst row'; simpl.
  - apply Z.eqb_eq in E. repeat split; auto.
  - apply Z.eqb_neq in E. repeat split; auto.
Qed.

Lemma allocated_count_add_allocation id application_id department_id status db :
  allocated_count id (add_allocation application_id department_id status db)
  = allocated_count id db
    + (if (department_id =? id) && String.eqb status "Allocated" then 1 else 0).
Proof.
  unfold allocated_count. simpl. rewrite filter_app, length_app. simpl.
  destruct ((department_id =? id) && String.eqb status "Allocated"); simpl; lia.
Qed.

Lemma allocated_count_nonneg id db : 0 <= allocated_count id db.
Proof. unfold allocated_count. lia. Qed.

(** ** Preservation of the invariant *)

Lemma consistent_empty : consistent empty_database.
Proof.
  constructor; simpl; try constructor; intros; contradiction.
Qed.

Lemma consistent_home db : consistent db -> consistent (database_after db (home db)).
Proof.
  intros C. unfold home. destruct (departments db) as [|d0 ds] eqn:Hd; simpl; [|exact C].
  assert (Hal : allocations db = []).
  { destruct (allocations db) as [|al als] eqn:E; [reflexivity|].
    pose proof (allocations_reference_departments db C al) as H.
    rewrite Hd, E in H. destruct H. now left. }
  destruct C as [_ _ Hau Hai Hs _ _ _ Hap Happ].
  rewrite Hd in *. rewrite Hal in *.
  constructor; simpl; rewrite ?Hd, ?Hal; simpl; auto.
  - repeat constructor; simpl; intuition lia.
  - intros d [<-|[<-|[<-|[]]]]; simpl; lia.
  - intros d [<-|[<-|[<-|[]]]]; simpl; lia.
  - intros d [<-|[<-|[<-|[]]]]; unfold allocated_count; simpl; rewrite Hal; reflexivity.
  - intros a Ha Hst. destruct (Happ a Ha Hst) as [_ []].
Qed.

Lemma consistent_add_application student_id form db :
  consistent db ->
  first (applications_of_student student_id db) = None ->
  consistent (add_application (new_application student_id form) db).
Proof.
  intros [Hdu Hdi Hau Hai Hs Hb Hc Hald Hala Happ] Hnone.
  constructor; simpl; auto.
  - rewrite map_app. simpl. apply NoDup_snoc; [exact Hau|].
    rewrite in_map_iff. intros [a [Heq Hin]]. apply Hai in Hin. lia.
  - intros a. rewrite in_app_iff. intros [Hin|[<-|[]]]; simpl.
    + apply Hai in Hin. lia.
    + lia.
  - rewrite map_app. simpl. apply NoDup_snoc; [exact Hs|].
    rewrite in_map_iff. intros [a [Heq Hin]].
    pose proof (first_filter_None _ _ Hnone a Hin) as Hf. simpl in Hf.
    apply Z.eqb_neq in Hf. contradiction.
  - intros al Hin. rewrite map_app, in_app_iff. left. now apply Hala.
  - intros a. rewrite in_app_iff. intros [Hin|[<-|[]]]; simpl.
    + now apply Happ.
    + discriminate.
Qed.

(** A review that stores a status other than [Approved]. *)
Lemma consistent_review_other a status db :
  consistent db -> status <> "Approved" ->
  consistent (update_document_status a status db).
Proof.
  intros [Hdu Hdi Hau Hai Hs Hb Hc Hald Hala Happ] Hst.
  constructor; try rewrite update_document_status_ids;
    try rewrite update_document_status_students; auto.
  - intros row' Hin. apply in_update_document_status in Hin.
    destruct Hin as [row [Hin [Hid _]]]. rewrite Hid. now apply Hai.
  - intros row' Hin Happroved. apply in_update_document_status in Hin.
    destruct Hin as [row [Hin [Hid [_ [_ [[_ Hs']|[_ ->]]]]]]].
    + congruence.
    + now apply Happ.
Qed.

(** A review that stores [Approved] and adds the allocation, with or without
    a seat. *)
Lemma consistent_review_approved a d db :
  consistent db ->
  In a (applications db) -> In d (departments db) ->
  Department.department_name d = Application.department a ->
  consistent
    (if Department.filled_seats d <? Department.total_seats d
     then add_allocation (Application.application_id a) (Department.department_id d)
            "Allocated" (increment_filled_seats d (update_document_status a "Approved" db))
     else add_allocation (Application.application_id a) (Department.department_id d)
            "Not Allocated" (update_document_status a "Approved" db)).
Proof.
  intros C Ha Hd Hname.
  pose proof C as [Hdu Hdi Hau Hai Hs Hb Hc Hald Hala Happ].
  assert (Hrefs : forall row', In row' (applications (update_document_status a "Approved" db)) ->
      Application.document_status row' = "Approved" ->
      In (Application.department row') (map Department.department_name (departments db))
      /\ In (Application.application_id row')
            (map Allocation.application_id (allocations db)
               ++ [Application.application_id a])).
  { intros row' Hin Hst. apply in_update_document_status in Hin.
    destruct Hin as [row [Hin [Hid [_ [Hdep [[Heq _]|[_ ->]]]]]]].
    - assert (row = a) by
        (apply (NoDup_map_eq Application.application_id (applications db)); auto).
      subst row. rewrite Hdep, Hid, <- Hname. split.
      + now apply in_map.
      + apply in_or_app. right. now left.
    - destruct (Happ row Hin Hst) as [H1 H2]. split; [exact H1|].
      apply in_or_app. now left. }
  assert (Hissued : forall row', In row' (applications (update_document_status a "Approved" db)) ->
      Application.application_id row' < applications_serial db).
  { intros row' Hin. apply in_update_document_status in Hin.
    destruct Hin as [row [Hin [Hid _]]]. rewrite Hid. now apply Hai. }
  assert (Hrefa : forall al,
      In al (allocations db) \/ Allocation.application_id al = Application.application_id a ->
      In (Allocation.application_id al) (map Application.application_id (applications db))).
  { intros al [Hin| ->]; [now apply Hala | now apply in_map]. }
  destruct (Department.filled_seats d <? Department.total_seats d) eqn:Hseat.
  - apply Z.ltb_lt in Hseat.
    constructor; cbn [applications allocations departments add_allocation
                      applications_serial allocations_serial departments_serial];
      try rewrite increment_filled_seats_ids; try rewrite increment_filled_seats_names;
      try (change (applications (increment_filled_seats d ?x)) with (applications x));
      try rewrite update_document_status_ids;
      try rewrite update_document_status_students; auto.
    + intros row' Hin. apply in_increment_filled_seats in Hin.
      destruct Hin as [row [Hin [Hid _]]]. rewrite Hid. now apply Hdi.
    + intros row' Hin. apply in_increment_filled_seats in Hin.
      destruct Hin as [row [Hin [Hid [_ [Htot [[Heq Hf]|[_ ->]]]]]]].
      * assert (row = d) by
          (apply (NoDup_map_eq Department.department_id (departments db)); auto). subst row. lia.
      * now apply Hb.
    + intros row' Hin. rewrite allocated_count_add_allocation.
      apply in_increment_filled_seats in Hin.
      destruct Hin as [row [Hin [Hid [_ [_ [[Heq Hf]|[Hne ->]]]]]]].
      * assert (row = d) by
          (apply (NoDup_map_eq Department.department_id (departments db)); auto). subst row.
        rewrite Hid, Z.eqb_refl. simpl. rewrite Hf, (Hc d Hd). reflexivity.
      * apply Z.eqb_neq in Hne. rewrite Z.eqb_sym, Hne. simpl.
        rewrite (Hc row Hin). unfold allocated_count. simpl. lia.
    + intros al. rewrite in_app_iff. intros [Hin|[<-|[]]]; simpl.
      * now apply Hald.
      * now apply in_map.
    + intros al. rewrite in_app_iff. intros [Hin|[<-|[]]]; apply Hrefa; auto.
    + intros row' Hin Hst. rewrite map_app. simpl. now apply Hrefs.
  - apply Z.ltb_ge in Hseat.
    constructor; cbn [applications allocations departments add_allocation
                      applications_serial allocations_serial departments_serial];
      try rewrite update_document_status_ids;
      try rewrite update_document_status_students; auto.
    + intros row Hin. rewrite allocated_count_add_allocation.
      rewrite andb_false_r. rewrite (Hc row Hin). unfold allocated_count. simpl. lia.
    + intros al. rewrite in_app_iff. intros [Hin|[<-|[]]]; simpl.
      * now apply Hald.
      * now apply in_map.
    + intros al. rewrite in_app_iff. intros [Hin|[<-|[]]]; apply Hrefa; auto.
    + intros row' Hin Hst. rewrite map_app. simpl. now apply Hrefs.
Qed.

(** ** The review transition, case by case *)

(** What a [String(200)] column stores is the string itself when it fits,
    and otherwise its first 200 characters. *)
Lemma substring_length n s :
  (n <= String.length s)%nat -> String.length (substring 0 n s) = n.
Proof.
  revert s. induction n as [|n IH]; intros s H.
  - now destruct s.
  - destruct s as [|c s]; simpl in *; [lia|]. rewrite IH; lia.
Qed.

Lemma has_nul_substring s : has_nul s = false ->
  forall n m, has_nul (substring n m s) = false.
Proof.
  induction s as [|c s IH]; intros H n m.
  - now destruct n, m.
  - simpl in H. apply orb_false_iff in H. destruct H as [Hc Hs].
    destruct n as [|n]; destruct m as [|m]; simpl; auto.
    rewrite Hc. simpl. now apply IH.
Qed.

Lemma fit_Some n s s' :
  fit n s = Some s' ->
  (s' = s /\ (String.length s <= n)%nat)
  \/ (String.length s' = n /\ (n < String.length s)%nat /\ s' = substring 0 n s).
Proof.
  unfold fit. destruct (String.length s <=? n)%nat eqn:Hlen.
  - intros H. injection H as <-. left. split; [reflexivity|]. now apply Nat.leb_le.
  - apply Nat.leb_gt in Hlen.
    destruct (only_spaces _); [|discriminate].
    intros H. injection H as <-. right. split; [|auto].
    apply substring_length. lia.
Qed.

Lemma stored_text_inr s s' :
  stored_text s = inr s' ->
  has_nul s' = false /\ (String.length s' <= 200)%nat
  /\ (s' = s \/ (String.length s' = 200 /\ 200 < String.length s)%nat).
Proof.
  unfold stored_text. destruct (has_nul s) eqn:Hnul; [discriminate|].
  destruct (fit 200 s) as [t|] eqn:Hfit; [|discriminate].
  intros H. injection H as <-.
  destruct (fit_Some _ _ _ Hfit) as [[-> Hlen]|[Hlen [Hlong ->]]].
  - auto.
  - split; [now apply has_nul_substring|]. split; [lia|]. right. auto.
Qed.

Lemma stored_text_fits s :
  has_nul s = false -> (String.length s <= 200)%nat -> stored_text s = inr s.
Proof.
  intros Hnul Hlen. unfold stored_text, fit. rewrite Hnul.
  apply Nat.leb_le in Hlen. now rewrite Hlen.
Qed.

(** A status other than [Approved] is not stored as [Approved]. *)
Lemma stored_status_not_approved a status stored :
  stored_status a status = inr stored -> status <> "Approved" -> stored <> "Approved".
Proof.
  unfold stored_status. destruct (String.eqb status (Application.document_status a)).
  - intros H. injection H as <-. auto.
  - intros H Hne. destruct (stored_text_inr _ _ H) as [_ [_ [->|[Hlen _]]]]; [exact Hne|].
    intros ->. discriminate Hlen.
Qed.

Lemma reviewed_cases mail student_id status s db :
  (first (applications_of_student student_id db) = None
   /\ reviewed mail student_id status s db = db)
  \/ exists a, first (applications_of_student student_id db) = Some a /\
       ((status <> "Approved"
         /\ exists stored,
              stored_status a status = inr stored /\ stored <> "Approved"
              /\ reviewed mail student_id status s db
                 = update_document_status a stored db)
        \/ (status <> "Approved"
            /\ (exists e, stored_status a status = inl e)
            /\ reviewed mail student_id status s db = db)
        \/ (status = "Approved"
            /\ first (departments_named (Application.department a) db) = None
            /\ reviewed mail student_id status s db = db)
        \/ (status = "Approved"
            /\ exists d, first (departments_named (Application.department a) db) = Some d
               /\ reviewed mail student_id status s db =
                  if Department.filled_seats d <? Department.total_seats d
                  then add_allocation (Application.application_id a)
                         (Department.department_id d) "Allocated"
                         (increment_filled_seats d (update_document_status a "Approved" db))
                  else add_allocation (Application.application_id a)
                         (Department.department_id d) "Not Allocated"
                         (update_document_status a "Approved" db))).
Proof.
  unfold reviewed, approve_documents.
  destruct (first (applications_of_student student_id db)) as [a|]; [right|left; auto].
  exists a. split; [reflexivity|].
  destruct (String.eqb status "Rejected") eqn:Hr.
  { apply String.eqb_eq in Hr. subst. left. split; [discriminate|].
    exists "Rejected". split; [|split; [discriminate | reflexivity]].
    unfold stored_status. now destruct (String.eqb _ _). }
  destruct (String.eqb status "Approved") eqn:Ha.
  - apply String.eqb_eq in Ha. subst. right. right.
    destruct (first (departments_named (Application.department a) db)) as [d|].
    + right. split; [reflexivity|]. exists d. split; [reflexivity|].
      now destruct (Department.filled_seats d <? Department.total_seats d).
    + left. auto.
  - apply String.eqb_neq in Ha.
    destruct (stored_status a status) as [e|stored] eqn:Hstored.
    + right. left. split; [exact Ha|]. split; [now exists e | reflexivity].
    + left. split; [exact Ha|]. exists stored.
      split; [reflexivity|]. split; [|reflexivity].
      now apply (stored_status_not_approved a status).
Qed.

Lemma found_application student_id db a :
  first (applications_of_student student_id db) = Some a ->
  In a (applications db) /\ Application.student_id a = student_id.
Proof.
  intros H. apply first_filter_Some in H. destruct H as [Hin Heq].
  apply Z.eqb_eq in Heq. auto.
Qed.

Lemma found_department name db d :
  first (departments_named name db) = Some d ->
  In d (departments db) /\ Department.department_name d = name.
Proof.
  intros H. apply first_filter_Some in H. destruct H as [Hin Heq].
  apply String.eqb_eq in Heq. auto.
Qed.

Lemma consistent_reviewed mail student_id status s db :
  consistent db -> consistent (reviewed mail student_id status s db).
Proof.
  intros C.
  destruct (reviewed_cases mail student_id status s db)
    as [[_ ->]|[a [Hfound [[_ [stored [_ [Hst ->]]]]
                          |[[_ [_ ->]]|[[_ [_ ->]]|[_ [d [Hd ->]]]]]]]]]; auto.
  - now apply consistent_review_other.
  - apply found_application in Hfound. apply found_department in Hd.
    apply consistent_review_approved; tauto.
Qed.

Lemma consistent_handle mail s req db :
  consistent db -> consistent (database_after db (handle mail s req db)).
Proof.
  intros C. destruct req as [|post| |post|dept]; simpl.
  - now apply consistent_home.
  - unfold student_signin_required, application_form.
    destruct (student s) as [[student_id username]|]; [|exact C].
    destruct (first (applications_of_student student_id db)) eqn:Hfirst; [exact C|].
    destruct post as [form|]; [|exact C].
    destruct (stored_form student_id form) as [e|stored]; [exact C|].
    now apply consistent_add_application.
  - unfold student_signin_required, application_status.
    destruct (student s) as [[student_id username]|]; [|exact C].
    now destruct (first (applications_of_student student_id db)).
  - unfold admin_signin_required.
    destruct (admin s) as [[admin_id admin_name]|] eqn:Hadmin; [|exact C].
    destruct post as [[student_id status]|].
    + now apply consistent_reviewed.
    + unfold approve_documents. rewrite Hadmin. exact C.
  - unfold admin_signin_required. now destruct (admin s).
Qed.

Lemma reachable_by_consistent allowed db : reachable_by allowed db -> consistent db.
Proof.
  induction 1 as [|db mail s req _ IH _].
  - exact consistent_empty.
  - now apply consistent_handle.
Qed.

Lemma reachable_by_weaken allowed db : reachable_by allowed db -> reachable db.
Proof.
  induction 1 as [|db mail s req _ IH _].
  - apply reachable_empty.
  - now apply reachable_step.
Qed.

Lemma reachable_by_serve allowed requests db :
  reachable_by allowed db -> all_allowed allowed requests db ->
  reachable_by allowed (serve requests db).
Proof.
  revert db. induction requests as [|[s req] requests IH]; intros db H Hall; simpl.
  - exact H.
  - destruct Hall as [Hreq Hall]. apply IH; [|exact Hall].
    now apply reachable_step.
Qed.

Lemma reachable_serve requests db : reachable db -> reachable (serve requests db).
Proof.
  intros H. apply reachable_by_serve; [exact H|].
  clear H. revert db. induction requests as [|sr requests IH]; intros db; simpl; auto.
Qed.

(** ** The seat ledger *)

Lemma seat_change_reviewed mail student_id status s db d' :
  consistent db ->
  In d' (departments (reviewed mail student_id status s db)) ->
  seat_change db d'.
Proof.
  intros C.
  destruct (reviewed_cases mail student_id status s db)
    as [[_ ->]|[a [Hfound [[Hst [stored [Hstored [Hne ->]]]]
                          |[[_ [_ ->]]|[[_ [_ ->]]|[_ [d [Hd ->]]]]]]]]];
    try (intros H; now left).
  apply found_department in Hd. destruct Hd as [Hd _].
  destruct (Department.filled_seats d <? Department.total_seats d) eqn:Hseat;
    [|intros H; now left].
  apply Z.ltb_lt in Hseat. intros Hin.
  change (In d' (departments (increment_filled_seats d db))) in Hin.
  apply in_increment_filled_seats in Hin.
  destruct Hin as [row [Hin [Hid [Hname [Htot [[Heq Hf]|[_ ->]]]]]]]; [|now left].
  assert (row = d) by
    (apply (NoDup_map_eq Department.department_id (departments db));
     auto using department_ids_unique).
  subst row. right. right. exists d. repeat split; auto.
Qed.

Lemma seat_change_handle mail s req db d' :
  consistent db ->
  In d' (departments (database_after db (handle mail s req db))) ->
  seat_change db d'.
Proof.
  intros C. destruct req as [|post| |post|dept]; simpl.
  - unfold home. destruct (departments db) as [|d0 ds] eqn:Hd; simpl.
    + rewrite ?Hd. simpl.
      intros [<-|[<-|[<-|[]]]]; right; left; (split; [exact Hd | reflexivity]).
    + rewrite ?Hd. intros H. left. rewrite Hd. exact H.
  - unfold student_signin_required, application_form.
    destruct (student s) as [[student_id username]|]; [|intros H; now left].
    destruct (first (applications_of_student student_id db)); [intros H; now left|].
    destruct post as [form|]; [|intros H; now left].
    destruct (stored_form student_id form); intros H; now left.
  - unfold student_signin_required, application_status.
    destruct (student s) as [[student_id username]|]; [|intros H; now left].
    destruct (first (applications_of_student student_id db)); intros H; now left.
  - unfold admin_signin_required.
    destruct (admin s) as [[admin_id admin_name]|] eqn:Hadmin; [|intros H; now left].
    destruct post as [[student_id status]|].
    + now apply seat_change_reviewed.
    + unfold approve_documents. rewrite Hadmin. intros H. now left.
  - unfold admin_signin_required. destruct (admin s); intros H; now left.
Qed.

(** C1. In every reachable database each department has
    [filled_seats <= total_seats] and [filled_seats] equal to the number of
    [Allocated] allocations that reference it; whatever request is served
    next (home page, submission, status page, review, listings) the same
    holds afterwards, and a department row changes only by being created
    with no seat filled or by [filled_seats] growing by exactly one from a
    value that was below [total_seats]. *)
Theorem filled_seats_within_total_and_counted db :
  reachable db ->
  (forall d, In d (departments db) ->
     Department.filled_seats d <= Department.total_seats d
     /\ Department.filled_seats d = allocated_count (Department.department_id d) db)
  /\ forall mail s req,
       let db' := database_after db (handle mail s req db) in
       (forall d', In d' (departments db') ->
          Department.filled_seats d' <= Department.total_seats d'
          /\ Department.filled_seats d' = allocated_count (Department.department_id d') db')
       /\ (forall d', In d' (departments db') -> seat_change db d').
Proof.
  intros Hreach. apply reachable_by_consistent in Hreach. split.
  - intros d Hd. split; [now apply (seats_bounded db) | now apply (seats_counted db)].
  - intros mail s req db'. split.
    + pose proof (consistent_handle mail s req db Hreach) as C'.
      intros d' Hd'. split; [now apply (seats_bounded db') | now apply (seats_counted db')].
    + intros d' Hd'. now apply (seat_change_handle mail s req).
Qed.

Lemma filled_seats_within_total_and_counted_witness :
  reachable approved_once
  /\ forall d, In d (departments approved_once) ->
       Department.filled_seats d <= Department.total_seats d
       /\ Department.filled_seats d
          = allocated_count (Department.department_id d) approved_once.
Proof.
  assert (H : reachable approved_once)
    by (apply reachable_serve; apply reachable_empty).
  split; [exact H|].
  exact (proj1 (filled_seats_within_total_and_counted approved_once H)).
Defined.

(** ** First approved, first served *)

Lemma found_application_after_update student_id a status db b :
  first (applications_of_student student_id db) = Some b ->
  exists b', first (applications_of_student student_id (update_document_status a status db))
             = Some b'
    /\ Application.application_id b' = Application.application_id b
    /\ Application.department b' = Application.department b.
Proof.
  intros H. unfold applications_of_student, update_document_status. simpl.
  rewrite first_filter_map
    by (intros row; simpl; now destruct (Application.application_id row =? _)).
  unfold applications_of_student in H. rewrite H. simpl.
  eexists. split; [reflexivity|].
  now destruct (Application.application_id b =? _).
Qed.

Lemma found_department_after_increment name d db :
  first (departments_named name db) = Some d ->
  first (departments_named name (increment_filled_seats d db))
  = Some (Department.set_filled_seats (Department.filled_seats d + 1) d).
Proof.
  intros H. unfold departments_named, increment_filled_seats. simpl.
  rewrite first_filter_map
    by (intros row; simpl; now destruct (Department.department_id row =? _)).
  unfold departments_named in H. rewrite H. simpl. now rewrite Z.eqb_refl.
Qed.

(** C2. In a department with [total_seats = 1] and [filled_seats = 0],
    approving applicant A returns and appends an [Allocated] allocation for A,
    and approving applicant B of the same department afterwards returns and
    appends a [Not Allocated] allocation for B; nothing is assumed about the
    merit keys of A and B, nor about the mail server. *)
Theorem first_approved_first_served mail1 mail2 s1 s2 db student_a student_b a b d :
  first (applications_of_student student_a db) = Some a ->
  first (applications_of_student student_b db) = Some b ->
  Application.department b = Application.department a ->
  first (departments_named (Application.department a) db) = Some d ->
  Department.total_seats d = 1 ->
  Department.filled_seats d = 0 ->
  exists db1 db2 sent1 sent2,
    approve_documents mail1 (Some (student_a, "Approved")) s1 db
      = Returned db1 [] sent1 (redirect "approve_documents")
    /\ allocations db1
       = allocations db
         ++ [Allocation.mk (allocations_serial db) (Application.application_id a)
               (Department.department_id d) "Allocated"]
    /\ approve_documents mail2 (Some (student_b, "Approved")) s2 db1
       = Returned db2 [] sent2 (redirect "approve_documents")
    /\ allocations db2
       = allocations db1
         ++ [Allocation.mk (allocations_serial db1) (Application.application_id b)
               (Department.department_id d) "Not Allocated"].
Proof.
  intros Ha Hb Hdep Hd Htotal Hfilled.
  set (db1 := add_allocation (Application.application_id a) (Department.department_id d)
                "Allocated"
                (increment_filled_seats d (update_document_status a "Approved" db))).
  destruct (found_application_after_update student_b a "Approved" db b Hb)
    as [b' [Hb' [Hid Hdep']]].
  assert (Hd1 : first (departments_named (Application.department b') db1)
                = Some (Department.set_filled_seats (Department.filled_seats d + 1) d)).
  { rewrite Hdep', Hdep.
    exact (found_department_after_increment _ d (update_document_status a "Approved" db) Hd). }
  exists db1. eexists. eexists. eexists. split; [|split; [reflexivity|split]].
  - unfold approve_documents. rewrite Ha. simpl. rewrite Hd.
    replace (Department.filled_seats d <? Department.total_seats d) with true
      by (symmetry; apply Z.ltb_lt; lia).
    reflexivity.
  - unfold approve_documents.
    change (applications_of_student student_b db1)
      with (applications_of_student student_b (update_document_status a "Approved" db)).
    rewrite Hb'. simpl String.eqb. cbv iota. rewrite Hd1.
    replace (Department.filled_seats
               (Department.set_filled_seats (Department.filled_seats d + 1) d)
             <? Department.total_seats
                  (Department.set_filled_seats (Department.filled_seats d + 1) d))
      with false by (symmetry; apply Z.ltb_ge; simpl; lia).
    reflexivity.
  - simpl. rewrite Hid. reflexivity.
Qed.

Lemma first_approved_first_served_witness :
  merit_order (new_application 8 (sample_form "CS" 95 90 90 21) 2)
              (new_application 7 (sample_form "CS" 80 70 60 20) 1) = true
  /\ exists db1 db2 sent1 sent2,
       approve_documents bounces (Some (7, "Approved")) admin_session last_seat
         = Returned db1 [] sent1 (redirect "approve_documents")
       /\ allocations db1 = [Allocation.mk 1 1 1 "Allocated"]
       /\ approve_documents delivers (Some (8, "Approved")) admin_session db1
          = Returned db2 [] sent2 (redirect "approve_documents")
       /\ allocations db2
          = [Allocation.mk 1 1 1 "Allocated";
             Allocation.mk (allocations_serial db1) 2 1 "Not Allocated"].
Proof.
  split; [reflexivity|].
  destruct (first_approved_first_served bounces delivers admin_session admin_session
              last_seat 7 8
              (new_application 7 (sample_form "CS" 80 70 60 20) 1)
              (new_application 8 (sample_form "CS" 95 90 90 21) 2)
              (Department.mk 1 "CS" 1 0)
              eq_refl eq_refl eq_refl eq_refl eq_refl eq_refl)
    as [db1 [db2 [sent1 [sent2 [H1 [H2 [H3 H4]]]]]]].
  exists db1, db2, sent1, sent2. split; [exact H1|]. split; [exact H2|].
  split; [exact H3|]. rewrite H4, H2. reflexivity.
Defined.

(** ** Rejection *)

(** C8. Reviewing an application with [Rejected] returns and stores
    [Rejected] as the application's document status: the application the
    student is found with afterwards has document status [Rejected] and
    every other column as before, the rows of other applications are
    untouched, and the allocations and every department row (hence every
    [filled_seats]) are as they were. *)
Theorem rejected_review_creates_no_allocation mail s db student_id a :
  first (applications_of_student student_id db) = Some a ->
  exists db' sent a',
    approve_documents mail (Some (student_id, "Rejected")) s db
      = Returned db' [] sent (redirect "approve_documents")
    /\ first (applications_of_student student_id db') = Some a'
    /\ Application.document_status a' = "Rejected"
    /\ a' = Application.mk (Application.application_id a) (Application.student_id a)
              (Application.student_name a) (Application.student_gender a)
              (Application.student_email a) (Application.student_age a)
              (Application.department a) (Application.entrance_marks a)
              (Application.percentage_10th a) (Application.percentage_12th a)
              "Rejected" (Application.documents a)
    /\ (forall row, In row (applications db') ->
          Application.application_id row = Application.application_id a ->
          Application.document_status row = "Rejected")
    /\ (forall row, In row (applications db') ->
          Application.application_id row <> Application.application_id a ->
          In row (applications db))
    /\ applications db'
       = map (fun row =>
                if Application.application_id row =? Application.application_id a
                then Application.set_document_status "Rejected" row else row)
             (applications db)
    /\ allocations db' = allocations db
    /\ departments db' = departments db.
Proof.
  intros Ha. exists (update_document_status a "Rejected" db). eexists.
  exists (Application.set_document_status "Rejected" a).
  split; [|split; [|split; [|split; [|split; [|split]]]]].
  - unfold approve_documents. rewrite Ha. reflexivity.
  - unfold applications_of_student, update_document_status. simpl.
    rewrite first_filter_map
      by (intros row; simpl; now destruct (Application.application_id row =? _)).
    unfold applications_of_student in Ha. rewrite Ha. simpl.
    now rewrite Z.eqb_refl.
  - reflexivity.
  - reflexivity.
  - intros row Hin Hid. apply in_update_document_status in Hin.
    destruct Hin as [row0 [_ [Hid0 [_ [_ [[_ Hst]|[Hne _]]]]]]]; [exact Hst|].
    congruence.
  - intros row Hin Hid. apply in_update_document_status in Hin.
    destruct Hin as [row0 [Hin [Hid0 [_ [_ [[Heq _]|[_ ->]]]]]]]; [congruence|exact Hin].
  - repeat split.
Qed.

Lemma rejected_review_creates_no_allocation_witness :
  exists db' sent a',
    approve_documents delivers (Some (7, "Rejected")) admin_session approved_once
      = Returned db' [] sent (redirect "approve_documents")
    /\ first (applications_of_student 7 db') = Some a'
    /\ Application.document_status a' = "Rejected"
    /\ allocations db' = allocations approved_once
    /\ departments db' = departments approved_once.
Proof.
  destruct (rejected_review_creates_no_allocation delivers admin_session approved_once 7
              (Application.set_document_status "Approved"
                 (new_application 7 (sample_form "CS" 80 70 60 20) 1))
              eq_refl)
    as [db' [sent [a' [H1 [H2 [H3 [_ [_ [_ [_ [H4 H5]]]]]]]]]]].
  exists db', sent, a'. auto.
Defined.

(** ** Notifications *)

(** C9. Whether each [mail.send] of a review returns or raises changes
    nothing but the mails delivered: the view returns or fails in the same
    way and leaves the same database (the same document status, the same
    allocation if any, the same [filled_seats]) as with a mail server that
    delivers everything. *)
Theorem notification_failure_changes_nothing mail post s db :
  forget_mails (approve_documents mail post s db)
  = forget_mails (approve_documents delivers post s db)
  /\ database_after db (approve_documents mail post s db)
     = database_after db (approve_documents delivers post s db).
Proof.
  assert (H : forget_mails (approve_documents mail post s db)
              = forget_mails (approve_documents delivers post s db)).
  { unfold approve_documents. destruct post as [[student_id status]|].
    - destruct (first (applications_of_student student_id db)) as [a|]; [|reflexivity].
      destruct (String.eqb status "Rejected"); [reflexivity|].
      destruct (String.eqb status "Approved"); [|reflexivity].
      destruct (first (departments_named (Application.department a) db)) as [d|];
        [|reflexivity].
      now destruct (Department.filled_seats d <? Department.total_seats d).
    - now destruct (admin s) as [[? ?]|]. }
  split; [exact H|].
  destruct (approve_documents mail post s db), (approve_documents delivers post s db);
    simpl in *; congruence.
Qed.

(** ** Bootstrap of the departments *)

(** C10. The home page creates the departments when there is none: exactly
    CS with 300 seats, Mechanical with 100 and Civil with 100, none filled,
    and nothing else changes; when a department exists it writes nothing, so
    a second visit leaves the database of the first. *)
Theorem home_creates_departments_once db :
  (departments db = [] ->
   exists db',
     home db = Returned db' [] [] (render_template "home.html" no_context)
     /\ departments db'
        = [ Department.mk (departments_serial db) "CS" 300 0;
            Department.mk (departments_serial db + 1) "Mechanical" 100 0;
            Department.mk (departments_serial db + 1 + 1) "Civil" 100 0 ]
     /\ applications db' = applications db
     /\ allocations db' = allocations db)
  /\ (departments db <> [] ->
      home db = Returned db [] [] (render_template "home.html" no_context))
  /\ home (database_after db (home db))
     = Returned (database_after db (home db)) [] [] (render_template "home.html" no_context).
Proof.
  unfold home. destruct (departments db) as [|d0 ds] eqn:Hd.
  - split; [|split].
    + intros _. eexists. split; [reflexivity|]. simpl. rewrite Hd. auto.
    + intros H. now contradiction H.
    + simpl. rewrite Hd. reflexivity.
  - split; [|split].
    + discriminate.
    + reflexivity.
    + simpl. rewrite Hd. reflexivity.
Qed.

Lemma home_creates_departments_once_witness :
  exists db',
    home empty_database = Returned db' [] [] (render_template "home.html" no_context)
    /\ departments db'
       = [ Department.mk 1 "CS" 300 0;
           Department.mk 2 "Mechanical" 100 0;
           Department.mk 3 "Civil" 100 0 ].
Proof.
  destruct (proj1 (home_creates_departments_once empty_database) eq_refl)
    as [db' [H1 [H2 _]]].
  exists db'. split; [exact H1 | exact H2].
Defined.

(** ** One application per student *)

Lemma stored_form_fits student_id form :
  fits_columns student_id form = true -> stored_form student_id form = inr form.
Proof.
  unfold fits_columns, stored_form, fit. destruct form as [n a g e d m p10 p12 docs]. simpl.
  rewrite !andb_true_iff, !negb_true_iff.
  intros [[[[[[[[[[[[Hn Hg] He] Hd] Ln] Lg] Le] Ld] Is] Ia] Im] I10] I12].
  rewrite Hn, Hg, He, Hd, Ln, Lg, Le, Ld, Is, Ia, Im, I10, I12. reflexivity.
Qed.

(** C7, as the code has it. In every reachable database no student owns two
    applications.  A submission by a student who owns one is turned away with
    the flash message of the duplicate and writes nothing.  A submission by a
    student who owns none appends exactly one application, of that student,
    with document status [Pending], when the columns take the form (as
    submitted when every string has at most 200 characters and no NUL and
    every integer has 32 bits); when a column refuses a value the commit
    raises and no application is created. *)
Theorem one_application_per_student_enforced db student_id username adm form :
  reachable db ->
  let s := mksession (Some (student_id, username)) adm in
  NoDup (map Application.student_id (applications db))
  /\ ((exists a, In a (applications db) /\ Application.student_id a = student_id) ->
      handle delivers s (application_form_request (Some form)) db
      = Returned db [("You can submit only one application.", "danger")] []
          (redirect "student_dashboard"))
  /\ ((forall a, In a (applications db) -> Application.student_id a <> student_id) ->
      (forall stored, stored_form student_id form = inr stored ->
       exists db' application,
         handle delivers s (application_form_request (Some form)) db
         = Returned db' [("Application submitted successfully.", "success")] []
             (redirect "student_dashboard")
         /\ applications db' = applications db ++ [application]
         /\ application = new_application student_id stored (applications_serial db)
         /\ Application.student_id application = student_id
         /\ Application.document_status application = "Pending"
         /\ allocations db' = allocations db
         /\ departments db' = departments db)
      /\ (forall e, stored_form student_id form = inl e ->
          handle delivers s (application_form_request (Some form)) db = Raised e []
          /\ database_after db
               (handle delivers s (application_form_request (Some form)) db) = db)
      /\ (fits_columns student_id form = true -> stored_form student_id form = inr form)).
Proof.
  intros Hreach s. apply reachable_by_consistent in Hreach. split; [|split].
  - now apply one_application_per_student.
  - intros [a [Hin Hsid]]. simpl. unfold student_signin_required, application_form. simpl.
    destruct (first_filter_exists (fun a => Application.student_id a =? student_id)
                (applications db) a Hin) as [a' Ha'].
    { now apply Z.eqb_eq. }
    unfold applications_of_student. now rewrite Ha'.
  - intros Hnone. simpl. unfold student_signin_required, application_form. simpl.
    destruct (first (applications_of_student student_id db)) as [a|] eqn:Hfirst.
    { apply found_application in Hfirst. destruct Hfirst as [Hin Hsid].
      now destruct (Hnone a Hin). }
    split; [|split].
    + intros stored ->. eexists. eexists. split; [reflexivity|]. simpl. repeat split.
    + intros e ->. auto.
    + apply stored_form_fits.
Qed.

Lemma one_application_per_student_enforced_witness :
  reachable approved_once
  /\ handle delivers (student_session 7)
       (application_form_request (Some (sample_form "Civil" 99 99 99 18))) approved_once
     = Returned approved_once [("You can submit only one application.", "danger")] []
         (redirect "student_dashboard").
Proof.
  assert (H : reachable approved_once)
    by (apply reachable_serve; apply reachable_empty).
  split; [exact H|].
  apply (one_application_per_student_enforced approved_once 7 "student" None
           (sample_form "Civil" 99 99 99 18) H).
  eexists. split; [left; reflexivity | reflexivity].
Defined.

(** C7 as stated fails: student 7 owns no application in the empty database,
    and the submission of a form whose entrance score is 2^31 raises
    [DataError] on the commit and stores nothing. *)
Lemma first_submission_always_stores_fails : ~ first_submission_always_stores.
Proof.
  intros claim.
  destruct (claim empty_database 7 "student" None
              (sample_form "CS" 2147483648 70 60 20)
              (reachable_empty _) (fun a H => match H with end))
    as [db' [application [Hrun _]]].
  vm_compute in Hrun. discriminate Hrun.
Qed.

(** ** Failed reviews *)

(** C6. A review posted for a student without application fails: the view
    raises (the lookup result is [None] and reading its [department] is an
    [AttributeError]) before anything is written.  A review with [Approved]
    of an application whose department name matches no department fails as
    well, on reading [filled_seats] of the missing department; the approval
    mail has been handed to the mail server by then, but the pending status
    change is discarded with the session.  In both cases the database is the
    one before the request: same applications, allocations and departments. *)
Theorem failed_review_leaves_database mail s db student_id :
  (first (applications_of_student student_id db) = None ->
   forall status,
     approve_documents mail (Some (student_id, status)) s db
     = Raised (AttributeError "department") []
     /\ reviewed mail student_id status s db = db)
  /\ (forall a,
        first (applications_of_student student_id db) = Some a ->
        first (departments_named (Application.department a) db) = None ->
        approve_documents mail (Some (student_id, "Approved")) s db
        = Raised (AttributeError "filled_seats") (try_send mail (approved_message a))
        /\ reviewed mail student_id "Approved" s db = db).
Proof.
  split.
  - intros Hnone status. unfold reviewed, approve_documents. rewrite Hnone. auto.
  - intros a Ha Hd. unfold reviewed, approve_documents. rewrite Ha. simpl. rewrite Hd. auto.
Qed.

Lemma failed_review_leaves_database_witness :
  (approve_documents delivers (Some (9, "Approved")) admin_session unknown_department
   = Raised (AttributeError "department") []
   /\ reviewed delivers 9 "Approved" admin_session unknown_department = unknown_department)
  /\ (approve_documents delivers (Some (7, "Approved")) admin_session unknown_department
      = Raised (AttributeError "filled_seats")
          [approved_message (new_application 7 (sample_form "Physics" 80 70 60 20) 1)]
      /\ reviewed delivers 7 "Approved" admin_session unknown_department
         = unknown_department).
Proof.
  split.
  - exact (proj1 (failed_review_leaves_database delivers admin_session
                    unknown_department 9) eq_refl "Approved").
  - exact (proj2 (failed_review_leaves_database delivers admin_session
                    unknown_department 7)
             (new_application 7 (sample_form "Physics" 80 70 60 20) 1) eq_refl eq_refl).
Defined.

(** ** Reviewing again *)

Lemma allocations_owned_add_allocation a department_id status db :
  allocations_owned a
    (add_allocation (Application.application_id a) department_id status db)
  = S (allocations_owned a db).
Proof.
  unfold allocations_owned, allocations_of_application. simpl.
  rewrite filter_app, length_app. simpl. rewrite Z.eqb_refl. simpl. lia.
Qed.

Lemma allocations_owned_positive a db :
  In (Application.application_id a) (map Allocation.application_id (allocations db)) ->
  (1 <= allocations_owned a db)%nat.
Proof.
  rewrite in_map_iff. intros [al [Heq Hin]].
  unfold allocations_owned, allocations_of_application.
  assert (Hf : In al (filter (fun al => Allocation.application_id al
                                        =? Application.application_id a)
                             (allocations db))).
  { apply filter_In. split; [exact Hin | now apply Z.eqb_eq]. }
  destruct (filter _ (allocations db)); [contradiction | simpl; lia].
Qed.

(** Approving an application whose department exists returns and appends one
    allocation for it. *)
Lemma approval_appends_allocation mail s db student_id a d :
  first (applications_of_student student_id db) = Some a ->
  first (departments_named (Application.department a) db) = Some d ->
  exists db' sent status,
    approve_documents mail (Some (student_id, "Approved")) s db
      = Returned db' [] sent (redirect "approve_documents")
    /\ allocations db'
       = allocations db
         ++ [Allocation.mk (allocations_serial db) (Application.application_id a)
               (Department.department_id d) status]
    /\ allocations_owned a db' = S (allocations_owned a db).
Proof.
  intros Ha Hd. unfold approve_documents. rewrite Ha. simpl. rewrite Hd.
  destruct (Department.filled_seats d <? Department.total_seats d);
    eexists; eexists; eexists; (split; [reflexivity|]);
    (split; [reflexivity|]); rewrite allocations_owned_add_allocation; reflexivity.
Qed.

(** C4, as the code has it. In a reachable database, approving again an
    application that is already [Approved] returns and appends one more
    allocation for it, so that it owns at least two.  Approving an
    application that is [Rejected] returns when a department carries the
    application's department name, and appends exactly one allocation for
    it. *)
Theorem re_approval_appends_an_allocation mail s db student_id a :
  reachable db ->
  first (applications_of_student student_id db) = Some a ->
  (Application.document_status a = "Approved" ->
   exists db' sent d status,
     approve_documents mail (Some (student_id, "Approved")) s db
       = Returned db' [] sent (redirect "approve_documents")
     /\ allocations db'
        = allocations db
          ++ [Allocation.mk (allocations_serial db) (Application.application_id a)
                (Department.department_id d) status]
     /\ (2 <= allocations_owned a db')%nat)
  /\ (Application.document_status a = "Rejected" ->
      forall d, first (departments_named (Application.department a) db) = Some d ->
      exists db' sent status,
        approve_documents mail (Some (student_id, "Approved")) s db
          = Returned db' [] sent (redirect "approve_documents")
        /\ allocations db'
           = allocations db
             ++ [Allocation.mk (allocations_serial db) (Application.application_id a)
                   (Department.department_id d) status]
        /\ allocations_owned a db' = S (allocations_owned a db)).
Proof.
  intros Hreach Ha. apply reachable_by_consistent in Hreach. split.
  - intros Hst. pose proof (found_application _ _ _ Ha) as [Hin _].
    destruct (approved_is_allocated db Hreach a Hin Hst) as [Hdep Hal].
    apply in_map_iff in Hdep. destruct Hdep as [d0 [Hname Hd0]].
    destruct (first_filter_exists
                (fun d => String.eqb (Department.department_name d) (Application.department a))
                (departments db) d0 Hd0) as [d Hd].
    { now apply String.eqb_eq. }
    destruct (approval_appends_allocation mail s db student_id a d Ha Hd)
      as [db' [sent [status [H1 [H2 H3]]]]].
    exists db', sent, d, status. split; [exact H1|]. split; [exact H2|].
    rewrite H3. apply allocations_owned_positive in Hal. lia.
  - intros _ d Hd. now apply approval_appends_allocation.
Qed.

Lemma re_approval_appends_an_allocation_witness :
  exists db' sent d status,
    approve_documents delivers (Some (7, "Approved")) admin_session approved_once
      = Returned db' [] sent (redirect "approve_documents")
    /\ allocations db'
       = allocations approved_once
         ++ [Allocation.mk (allocations_serial approved_once) 1
               (Department.department_id d) status]
    /\ (2 <= allocations_owned
               (Application.set_document_status "Approved"
                  (new_application 7 (sample_form "CS" 80 70 60 20) 1)) db')%nat.
Proof.
  assert (H : reachable approved_once)
    by (apply reachable_serve; apply reachable_empty).
  exact (proj1 (re_approval_appends_an_allocation delivers admin_session approved_once 7
                  (Application.set_document_status "Approved"
                     (new_application 7 (sample_form "CS" 80 70 60 20) 1))
                  H eq_refl) eq_refl).
Defined.

(** C4 as stated fails: the application of [rejected_once] is [Rejected]
    and owns no allocation, and approving it leaves it with one allocation,
    not two. *)
Lemma re_review_adds_second_allocation_fails : ~ re_review_adds_second_allocation.
Proof.
  intros claim.
  assert (H : reachable rejected_once)
    by (apply reachable_serve; apply reachable_empty).
  destruct (claim delivers admin_session rejected_once 7
              (Application.set_document_status "Rejected"
                 (new_application 7 (sample_form "CS" 80 70 60 20) 1))
              H eq_refl (or_intror eq_refl))
    as [db' [flashed [sent [r [Hrun Hcount]]]]].
  vm_compute in Hrun. injection Hrun as <- _ _ _.
  vm_compute in Hcount. lia.
Qed.

(** ** Allocations and approved documents *)

Lemma referenced_are_approved_reviewed mail student_id status s db :
  referenced_are_approved db ->
  reviews_spare_allocated db (approve_documents_request (Some (student_id, status))) ->
  referenced_are_approved (reviewed mail student_id status s db).
Proof.
  intros J Hguard. simpl in Hguard.
  destruct (reviewed_cases mail student_id status s db)
    as [[_ ->]|[a [Hfound [[Hst [stored [Hstored [Hne ->]]]]
                          |[[_ [_ ->]]|[[_ [_ ->]]|[_ [d [Hd ->]]]]]]]]]; auto.
  - destruct Hguard as [Happroved|Hfree]; [contradiction|].
    rewrite Hfound in Hfree.
    intros al row' Hal Hin Hid. apply in_update_document_status in Hin.
    destruct Hin as [row [Hin [Hid' [_ [_ [[Heq _]|[_ ->]]]]]]].
    + assert (Hown : In al (filter (fun al => Allocation.application_id al
                                             =? Application.application_id a)
                                  (allocations db))).
      { apply filter_In. split; [exact Hal|]. apply Z.eqb_eq. congruence. }
      rewrite Hfree in Hown. destruct Hown.
    + now apply (J al row).
  - assert (H : forall db',
        applications db' = applications (update_document_status a "Approved" db) ->
        allocations db'
        = allocations db
          ++ [Allocation.mk (allocations_serial db) (Application.application_id a)
                (Department.department_id d)
                (if Department.filled_seats d <? Department.total_seats d
                 then "Allocated" else "Not Allocated")] ->
        referenced_are_approved db').
    { intros db' Happs Hallocs al row' Hal Hin Hid.
      rewrite Happs in Hin. rewrite Hallocs in Hal.
      apply in_update_document_status in Hin.
      destruct Hin as [row [Hin [Hid' [_ [_ [[_ Hst]|[Hne ->]]]]]]]; [exact Hst|].
      apply in_app_iff in Hal. destruct Hal as [Hal|[<-|[]]].
      - now apply (J al row).
      - simpl in Hid. contradiction. }
    apply H; now destruct (Department.filled_seats d <? Department.total_seats d).
Qed.

Lemma referenced_are_approved_handle mail s req db :
  consistent db -> referenced_are_approved db -> reviews_spare_allocated db req ->
  referenced_are_approved (database_after db (handle mail s req db)).
Proof.
  intros C J Hguard. destruct req as [|post| |post|dept]; simpl.
  - unfold home. now destruct (departments db).
  - unfold student_signin_required, application_form.
    destruct (student s) as [[student_id username]|]; [|exact J].
    destruct (first (applications_of_student student_id db)); [exact J|].
    destruct post as [form|]; [|exact J].
    destruct (stored_form student_id form) as [e|stored]; [exact J|].
    intros al a Hal Hin Hid. simpl in Hal, Hin.
    apply in_app_iff in Hin. destruct Hin as [Hin|[<-|[]]].
    + now apply (J al a).
    + pose proof (allocations_reference_applications db C al Hal) as Href.
      apply in_map_iff in Href. destruct Href as [row [Hrow Hin]].
      apply (application_ids_issued db C) in Hin. simpl in Hid. lia.
  - unfold student_signin_required, application_status.
    destruct (student s) as [[student_id username]|]; [|exact J].
    now destruct (first (applications_of_student student_id db)).
  - unfold admin_signin_required.
    destruct (admin s) as [[admin_id admin_name]|] eqn:Hadmin; [|exact J].
    destruct post as [[student_id status]|].
    + now apply referenced_are_approved_reviewed.
    + unfold approve_documents. rewrite Hadmin. exact J.
  - unfold admin_signin_required. now destruct (admin s).
Qed.

(** C3, as the code has it. In every database reached by requests in which
    a review with a decision other than [Approved] is posted only for an
    application that owns no allocation, every allocation references an
    application whose document status is [Approved]; reviews with [Approved]
    are unrestricted, so approving again and approving a rejected
    application are covered. *)
Theorem allocations_reference_approved_applications db :
  reachable_by reviews_spare_allocated db -> allocations_reference_approved db.
Proof.
  intros Hreach.
  assert (J : referenced_are_approved db).
  { induction Hreach as [|db mail s req Hreach IH Hguard].
    - intros al a [].
    - apply referenced_are_approved_handle; auto.
      now apply (reachable_by_consistent reviews_spare_allocated). }
  apply reachable_by_consistent in Hreach.
  intros al Hal.
  pose proof (allocations_reference_applications db Hreach al Hal) as Href.
  apply in_map_iff in Href. destruct Href as [a [Hid Hin]].
  exists a. split; [exact Hin|]. split; [exact Hid|]. now apply (J al a).
Qed.

Lemma allocations_reference_approved_applications_witness :
  reachable_by reviews_spare_allocated reviewed_again
  /\ allocations_reference_approved reviewed_again.
Proof.
  assert (H : reachable_by reviews_spare_allocated reviewed_again).
  { apply reachable_by_serve; [apply reachable_empty|].
    vm_compute.
    repeat split; first [left; reflexivity | right; reflexivity]. }
  split; [exact H|].
  exact (allocations_reference_approved_applications reviewed_again H).
Defined.

(** C3 as stated fails: [approved_then_rejected] is reachable, and its only
    allocation references the application of student 7, which is
    [Rejected]. *)
Lemma allocation_of_rejected_application :
  reachable approved_then_rejected
  /\ ~ allocations_reference_approved approved_then_rejected.
Proof.
  split.
  - apply reachable_serve. apply reachable_serve. apply reachable_empty.
  - intros claim.
    destruct (claim (Allocation.mk 1 1 1 "Allocated") (or_introl eq_refl))
      as [a [Hin [_ Hst]]].
    vm_compute in Hin. destruct Hin as [<-|[]]. discriminate Hst.
Qed.

(** ** The merit listings *)

Section OrderBy.

Variable le : Application.t -> Application.t -> bool.
Hypothesis le_total : forall a b, le a b = true \/ le b a = true.
Hypothesis le_trans : forall a b c, le a b = true -> le b c = true -> le a c = true.

Lemma insert_row_permutation row rows :
  Permutation (insert_row le row rows) (row :: rows).
Proof.
  induction rows as [|r rows IH]; simpl; [reflexivity|].
  destruct (le row r); [reflexivity|].
  rewrite IH. apply perm_swap.
Qed.

Lemma insert_row_sorted row rows :
  StronglySorted (fun a b => le a b = true) rows ->
  StronglySorted (fun a b => le a b = true) (insert_row le row rows).
Proof.
  induction 1 as [|r rows Hsorted IH Hall]; simpl.
  - repeat constructor.
  - destruct (le row r) eqn:Hle.
    + constructor; [now constructor|].
      constructor; [exact Hle|].
      eapply Forall_impl; [|exact Hall]. intros b Hb. now apply (le_trans row r b).
    + constructor; [exact IH|].
      eapply Permutation_Forall; [symmetry; apply insert_row_permutation|].
      constructor; [|exact Hall].
      destruct (le_total row r) as [H|H]; [congruence | exact H].
Qed.

Lemma order_by_permutation rows : Permutation (order_by le rows) rows.
Proof.
  induction rows as [|r rows IH]; simpl; [reflexivity|].
  rewrite insert_row_permutation. now constructor.
Qed.

Lemma order_by_sorted rows :
  StronglySorted (fun a b => le a b = true) (order_by le rows).
Proof.
  induction rows as [|r rows IH]; simpl; [constructor|].
  now apply insert_row_sorted.
Qed.

End OrderBy.

Lemma unique_entities_In seen rows a :
  In a (unique_entities seen rows) -> In a rows.
Proof.
  revert seen. induction rows as [|r rows IH]; intros seen; simpl; [auto|].
  destruct (existsb _ seen).
  - intros H. right. now apply (IH seen).
  - intros [->|H]; [now left | right; now apply (IH _ H)].
Qed.

Lemma unique_entities_sorted (R : Application.t -> Application.t -> Prop) seen rows :
  StronglySorted R rows -> StronglySorted R (unique_entities seen rows).
Proof.
  intros H. revert seen. induction H as [|r rows Hsorted IH Hall]; intros seen; simpl.
  - constructor.
  - destruct (existsb _ seen); [apply IH|].
    constructor; [apply IH|].
    rewrite Forall_forall in *. intros b Hb. apply Hall.
    now apply unique_entities_In in Hb.
Qed.

Lemma unique_entities_keeps_keys seen rows a :
  In a rows ->
  In (Application.application_id a) seen
  \/ In (Application.application_id a)
        (map Application.application_id (unique_entities seen rows)).
Proof.
  revert seen. induction rows as [|r rows IH]; intros seen; simpl; [contradiction|].
  intros [->|Hin].
  - destruct (existsb (Z.eqb (Application.application_id a)) seen) eqn:E.
    + left. apply existsb_exists in E. destruct E as [x [Hx Heq]].
      apply Z.eqb_eq in Heq. now subst.
    + right. now left.
  - destruct (existsb (Z.eqb (Application.application_id r)) seen).
    + now apply IH.
    + destruct (IH (Application.application_id r :: seen) Hin) as [[Heq|H]|H].
      * right. left. exact Heq.
      * now left.
      * right. now right.
Qed.

Lemma desc_total column rest :
  (forall a b, rest a b = true \/ rest b a = true) ->
  forall a b, desc column rest a b = true \/ desc column rest b a = true.
Proof.
  intros Hrest a b. unfold desc.
  destruct (Z.lt_trichotomy (column a) (column b)) as [H|[H|H]].
  - right. apply orb_true_iff. left. now apply Z.ltb_lt.
  - destruct (Hrest a b) as [Hr|Hr]; [left|right];
      apply orb_true_iff; right; rewrite Hr, andb_true_r; apply Z.eqb_eq; lia.
  - left. apply orb_true_iff. left. now apply Z.ltb_lt.
Qed.

Lemma desc_spec column rest a b :
  desc column rest a b = true
  <-> column b < column a \/ (column a = column b /\ rest a b = true).
Proof.
  unfold desc. rewrite orb_true_iff, andb_true_iff, Z.ltb_lt, Z.eqb_eq. reflexivity.
Qed.

Lemma desc_trans column rest :
  (forall a b c, rest a b = true -> rest b c = true -> rest a c = true) ->
  forall a b c, desc column rest a b = true -> desc column rest b c = true ->
    desc column rest a c = true.
Proof.
  intros Hrest a b c. rewrite !desc_spec.
  intros [H1|[H1 R1]] [H2|[H2 R2]]; try (left; lia).
  right. split; [lia | now apply (Hrest a b c)].
Qed.

Lemma merit_order_total a b : merit_order a b = true \/ merit_order b a = true.
Proof.
  unfold merit_order. repeat apply desc_total. auto.
Qed.

Lemma merit_order_trans a b c :
  merit_order a b = true -> merit_order b c = true -> merit_order a c = true.
Proof.
  unfold merit_order. repeat apply desc_trans. auto.
Qed.

Lemma merit_order_spec a b : merit_order a b = true <-> first_difference_decides a b.
Proof.
  unfold merit_order, first_difference_decides. rewrite !desc_spec.
  intuition lia.
Qed.

Lemma in_join_allocations db a al :
  In (a, al) (join_allocations db)
  <-> In a (applications db) /\ In al (allocations db)
      /\ Allocation.application_id al = Application.application_id a.
Proof.
  unfold join_allocations. rewrite in_flat_map. split.
  - intros [a' [Ha' Hin]]. apply in_map_iff in Hin.
    destruct Hin as [al' [Heq Hf]]. inversion Heq; subst.
    apply filter_In in Hf. destruct Hf as [Hal E]. apply Z.eqb_eq in E. auto.
  - intros [Ha [Hal E]]. exists a. split; [exact Ha|].
    apply in_map. apply filter_In. split; [exact Hal | now apply Z.eqb_eq].
Qed.

Lemma ranked_pending_by_merit db : ranked (pending_by_merit db).
Proof.
  apply order_by_sorted; [exact merit_order_total | exact merit_order_trans].
Qed.

Lemma ranked_allocated_by_merit dept db : ranked (allocated_by_merit dept db).
Proof.
  apply unique_entities_sorted.
  apply order_by_sorted; [exact merit_order_total | exact merit_order_trans].
Qed.

(** C5. Both listings are ordered by the key ([entrance_marks],
    [percentage_12th], [percentage_10th], [student_age]), each descending, as
    a tie-break chain in which the first attribute that differs decides: every
    row of a listing is ranked before, or tied with, every later row.  The
    pending listing is a rearrangement of the pending applications; the
    department listing holds exactly the applications of that department
    with an [Allocated] allocation.  On the two records of the example the one
    with the better 12th percentage comes first.  Serving either listing
    returns the database unchanged and sends no mail. *)
Theorem merit_listings_ordered_by_key mail stud admin_id admin_name dept db :
  let s := mksession stud (Some (admin_id, admin_name)) in
  (forall a b, merit_order a b = true <-> first_difference_decides a b)
  /\ handle mail s (approve_documents_request None) db
     = Returned db [] []
         (render_template "approve_documents.html"
            (approve_documents_context admin_name (pending_by_merit db)))
  /\ ranked (pending_by_merit db)
  /\ Permutation (pending_by_merit db)
       (filter (fun a => String.eqb (Application.document_status a) "Pending")
               (applications db))
  /\ handle mail s (department_merit_request dept) db
     = Returned db [] []
         (render_template "merit_list.html"
            (merit_list_context (first (departments_named dept db))
               (allocated_by_merit dept db)))
  /\ ranked (allocated_by_merit dept db)
  /\ (forall a, In a (allocated_by_merit dept db) ->
        In a (applications db) /\ Application.department a = dept
        /\ exists al, In al (allocations db)
             /\ Allocation.application_id al = Application.application_id a
             /\ Allocation.allocation_status al = "Allocated")
  /\ (forall a al, In a (applications db) -> Application.department a = dept ->
        In al (allocations db) ->
        Allocation.application_id al = Application.application_id a ->
        Allocation.allocation_status al = "Allocated" ->
        In (Application.application_id a)
           (map Application.application_id (allocated_by_merit dept db)))
  /\ pending_by_merit ranking_example
     = [ new_application 8 (sample_form "CS" 80 75 60 19) 2;
         new_application 7 (sample_form "CS" 80 70 60 20) 1 ].
Proof.
  intros s. split; [exact merit_order_spec|].
  split; [reflexivity|]. split; [apply ranked_pending_by_merit|].
  split; [apply order_by_permutation|]. split; [reflexivity|].
  split; [apply ranked_allocated_by_merit|]. split; [|split; [|reflexivity]].
  - intros a Hin. unfold allocated_by_merit in Hin.
    apply unique_entities_In in Hin.
    apply (Permutation_in _ (order_by_permutation merit_order _)) in Hin.
    apply in_map_iff in Hin. destruct Hin as [[a' al] [Heq Hin]]. simpl in Heq. subst a'.
    apply filter_In in Hin. destruct Hin as [Hjoin Hcond]. simpl in Hcond.
    apply andb_true_iff in Hcond. destruct Hcond as [Hdept Hstatus].
    apply String.eqb_eq in Hdept. apply String.eqb_eq in Hstatus.
    apply in_join_allocations in Hjoin. destruct Hjoin as [Ha [Hal Hid]].
    split; [exact Ha|]. split; [exact Hdept|]. exists al. auto.
  - intros a al Ha Hdept Hal Hid Hstatus. unfold allocated_by_merit.
    destruct (unique_entities_keeps_keys []
                (order_by merit_order
                   (map fst
                      (filter (fun row =>
                                 String.eqb (Application.department (fst row)) dept
                                 && String.eqb (Allocation.allocation_status (snd row))
                                      "Allocated")
                              (join_allocations db)))) a) as [[]|H]; [|exact H].
    apply (Permutation_in _ (Permutation_sym (order_by_permutation merit_order _))).
    apply in_map_iff. exists (a, al). split; [reflexivity|].
    apply filter_In. split.
    + apply in_join_allocations. auto.
    + simpl. apply andb_true_iff. split; now apply String.eqb_eq.
Qed.

(** * Further properties of the views *)

(** ** Sign-in decorators *)

(** X1. A route under [admin_signin_required] visited without a signed-in
    admin, or a route under [student_signin_required] visited without a
    signed-in student, answers with the sign-in flash and the redirect to the
    home page, whatever the other half of the session holds: nothing is
    written and no mail is sent. *)
Theorem visitors_without_signin_are_turned_away mail s r db :
  (admin_only r = true /\ admin s = None)
  \/ (student_only r = true /\ student s = None) ->
  visit mail s r db = turned_away db.
Proof.
  intros [[Hr Hs]|[Hr Hs]].
  - destruct r as [[|post| |post|dept]| | | | |student_id]; try discriminate Hr;
      simpl; unfold admin_signin_required; rewrite Hs; reflexivity.
  - destruct r as [[|post| |post|dept]| | | | |student_id]; try discriminate Hr;
      simpl; unfold student_signin_required; rewrite Hs; reflexivity.
Qed.

Lemma visitors_without_signin_are_turned_away_witness :
  visit delivers (student_session 7)
    (handled (approve_documents_request (Some (7, "Approved")))) approved_once
  = turned_away approved_once.
Proof.
  apply visitors_without_signin_are_turned_away.
  left. split; reflexivity.
Defined.

(** ** What a request can write *)

Lemma handle_allocations mail s req db :
  allocations (database_after db (handle mail s req db)) = allocations db
  \/ exists student_id a d status,
       req = approve_documents_request (Some (student_id, "Approved"))
       /\ admin s <> None
       /\ first (applications_of_student student_id db) = Some a
       /\ first (departments_named (Application.department a) db) = Some d
       /\ (status = "Allocated" \/ status = "Not Allocated")
       /\ allocations (database_after db (handle mail s req db))
          = allocations db
            ++ [Allocation.mk (allocations_serial db) (Application.application_id a)
                  (Department.department_id d) status].
Proof.
  destruct req as [|post| |post|dept]; simpl.
  - left. unfold home. now destruct (departments db).
  - left. unfold student_signin_required, application_form.
    destruct (student s) as [[student_id username]|]; [|reflexivity].
    destruct (first (applications_of_student student_id db)); [reflexivity|].
    destruct post as [form|]; [|reflexivity].
    now destruct (stored_form student_id form).
  - left. unfold student_signin_required, application_status.
    destruct (student s) as [[student_id username]|]; [|reflexivity].
    now destruct (first (applications_of_student student_id db)).
  - unfold admin_signin_required.
    destruct (admin s) as [[admin_id admin_name]|] eqn:Hadmin; [|now left].
    destruct post as [[student_id status]|].
    + fold (reviewed mail student_id status s db).
      destruct (reviewed_cases mail student_id status s db)
        as [[_ ->]|[a [Hfound [[_ [stored [_ [_ ->]]]]
                              |[[_ [_ ->]]|[[_ [_ ->]]|[-> [d [Hd ->]]]]]]]]];
        try (now left).
      right. exists student_id, a, d.
      destruct (Department.filled_seats d <? Department.total_seats d).
      * exists "Allocated". repeat split; auto. discriminate.
      * exists "Not Allocated". repeat split; auto. discriminate.
    + left. unfold approve_documents. now rewrite Hadmin.
  - left. unfold admin_signin_required. now destruct (admin s).
Qed.

(** X2. A request leaves the allocations as they were or appends exactly
    one: only an [Approved] review posted by a signed-in admin for a student
    with an application and an existing department appends, and the new row
    references that application and that department with status [Allocated]
    or [Not Allocated].  No request alters or deletes an allocation. *)
Theorem allocations_are_append_only mail s req db :
  allocations (database_after db (handle mail s req db)) = allocations db
  \/ exists student_id a d status,
       req = approve_documents_request (Some (student_id, "Approved"))
       /\ admin s <> None
       /\ first (applications_of_student student_id db) = Some a
       /\ first (departments_named (Application.department a) db) = Some d
       /\ (status = "Allocated" \/ status = "Not Allocated")
       /\ allocations (database_after db (handle mail s req db))
          = allocations db
            ++ [Allocation.mk (allocations_serial db) (Application.application_id a)
                  (Department.department_id d) status].
Proof.
  exact (handle_allocations mail s req db).
Qed.

Lemma submitted_part_update a status db :
  map submitted_part (applications (update_document_status a status db))
  = map submitted_part (applications db).
Proof.
  apply map_rewrite_key. intros row. now destruct (_ =? _).
Qed.

(** X3. No request deletes an application or changes what the candidate
    submitted: row by row, the applications of the database before the
    request are those after it up to the document status, followed by at
    most one new row; and unless the request is a posted review, the rows
    themselves are unchanged. *)
Theorem submitted_applications_are_kept mail s req db :
  exists added,
    map submitted_part (applications (database_after db (handle mail s req db)))
    = map submitted_part (applications db) ++ map submitted_part added
    /\ (List.length added <= 1)%nat
    /\ ((forall post, req <> approve_documents_request (Some post)) ->
        applications (database_after db (handle mail s req db))
        = applications db ++ added).
Proof.
  assert (Hsame : forall db',
    applications db' = applications db ->
    exists added,
      map submitted_part (applications db')
      = map submitted_part (applications db) ++ map submitted_part added
      /\ (List.length added <= 1)%nat
      /\ ((forall post, req <> approve_documents_request (Some post)) ->
          applications db' = applications db ++ added)).
  { intros db' ->. exists []. simpl. rewrite !app_nil_r. auto. }
  destruct req as [|post| |post|dept]; simpl.
  - apply Hsame. unfold home. now destruct (departments db).
  - unfold student_signin_required, application_form.
    destruct (student s) as [[student_id username]|]; [|now apply Hsame].
    destruct (first (applications_of_student student_id db)); [now apply Hsame|].
    destruct post as [form|]; [|now apply Hsame].
    destruct (stored_form student_id form) as [e|stored]; [now apply Hsame|].
    exists [new_application student_id stored (applications_serial db)]. simpl.
    rewrite map_app. auto.
  - apply Hsame. unfold student_signin_required, application_status.
    destruct (student s) as [[student_id username]|]; [|reflexivity].
    now destruct (first (applications_of_student student_id db)).
  - unfold admin_signin_required.
    destruct (admin s) as [[admin_id admin_name]|] eqn:Hadmin; [|now apply Hsame].
    destruct post as [[student_id status]|].
    + fold (reviewed mail student_id status s db).
      exists []. simpl. rewrite !app_nil_r. split; [|split; [lia|]].
      * destruct (reviewed_cases mail student_id status s db)
          as [[_ ->]|[a [Hfound [[_ [stored [_ [_ ->]]]]
                                |[[_ [_ ->]]|[[_ [_ ->]]|[-> [d [Hd ->]]]]]]]]];
          try reflexivity.
        -- apply submitted_part_update.
        -- destruct (Department.filled_seats d <? Department.total_seats d);
             apply (submitted_part_update a "Approved" db).
      * intros H. now destruct (H (student_id, status)).
    + apply Hsame. unfold approve_documents. now rewrite Hadmin.
  - apply Hsame. unfold admin_signin_required. now destruct (admin s).
Qed.

(** ** The status page *)

Lemma allocation_statuses_known db :
  reachable db ->
  forall al, In al (allocations db) ->
    Allocation.allocation_status al = "Allocated"
    \/ Allocation.allocation_status al = "Not Allocated".
Proof.
  induction 1 as [|db mail s req _ IH _]; [intros al []|].
  intros al Hin.
  destruct (handle_allocations mail s req db)
    as [Heq|[student_id [a [d [status [_ [_ [_ [_ [Hst Heq]]]]]]]]]];
    rewrite Heq in Hin.
  - now apply IH.
  - apply in_app_iff in Hin. destruct Hin as [Hin|[<-|[]]]; [now apply IH | exact Hst].
Qed.

(** X4. In a reachable database the status page of a signed-in student with
    an application shows, beside the document status: [Documents not verified]
    when the documents are [Rejected], also when the application still owns
    an allocation; the status of the first allocation of the application,
    which is [Allocated] or [Not Allocated], when they are [Approved] (an
    approved application always owns one); and the pending message for any
    other document status. *)
Theorem status_page_shows_decision mail s student_id username db a :
  reachable db ->
  student s = Some (student_id, username) ->
  first (applications_of_student student_id db) = Some a ->
  exists shown,
    handle mail s application_status_request db
    = Returned db [] []
        (render_template "application_status.html"
           (application_status_context (Application.student_name a)
              (Application.document_status a) shown))
    /\ (Application.document_status a = "Rejected" -> shown = "Documents not verified")
    /\ (Application.document_status a = "Approved" ->
        (shown = "Allocated" \/ shown = "Not Allocated")
        /\ exists al,
             first (allocations_of_application (Application.application_id a) db) = Some al
             /\ shown = Allocation.allocation_status al)
    /\ (Application.document_status a <> "Rejected" ->
        Application.document_status a <> "Approved" ->
        shown = "Document verification is pending").
Proof.
  intros Hreach Hs Ha. simpl. unfold student_signin_required, application_status.
  rewrite Hs, Ha. eexists. split; [reflexivity|].
  destruct (String.eqb (Application.document_status a) "Rejected") eqn:Hr.
  { apply String.eqb_eq in Hr. rewrite Hr. repeat split; try discriminate; congruence. }
  apply String.eqb_neq in Hr.
  destruct (String.eqb (Application.document_status a) "Approved") eqn:Hap.
  - apply String.eqb_eq in Hap. split; [congruence|]. split; [|congruence].
    intros _. pose proof (reachable_by_consistent _ _ Hreach) as C.
    apply found_application in Ha. destruct Ha as [Hin _].
    destruct (approved_is_allocated db C a Hin Hap) as [_ Hal].
    apply in_map_iff in Hal. destruct Hal as [al0 [Hid Hal0]].
    destruct (first_filter_exists
                (fun al => Allocation.application_id al =? Application.application_id a)
                (allocations db) al0 Hal0) as [al Hal].
    { now apply Z.eqb_eq. }
    unfold allocations_of_application. rewrite Hal. split.
    + apply first_filter_Some in Hal. destruct Hal as [Hal _].
      now apply (allocation_statuses_known db Hreach).
    + exists al. auto.
  - apply String.eqb_neq in Hap. split; [congruence|]. split; [congruence|]. reflexivity.
Qed.

Lemma status_page_shows_decision_witness :
  exists shown,
    handle delivers (student_session 7) application_status_request approved_then_rejected
    = Returned approved_then_rejected [] []
        (render_template "application_status.html"
           (application_status_context "Asha" "Rejected" shown))
    /\ shown = "Documents not verified".
Proof.
  assert (H : reachable approved_then_rejected)
    by (apply reachable_serve; apply reachable_serve; apply reachable_empty).
  destruct (status_page_shows_decision delivers (student_session 7) 7 "student"
              approved_then_rejected
              (Application.set_document_status "Rejected"
                 (new_application 7 (sample_form "CS" 80 70 60 20) 1))
              H eq_refl eq_refl) as [shown [H1 [H2 _]]].
  exists shown. split; [exact H1 | exact (H2 eq_refl)].
Defined.

(** ** The departments *)

Lemma fixed_part_increment d db :
  map fixed_part (departments (increment_filled_seats d db))
  = map fixed_part (departments db).
Proof.
  apply map_rewrite_key. intros row. now destruct (_ =? _).
Qed.

(** What a request does to the departments: nothing, the bootstrap of an empty
    table, or one seat filled. *)
Lemma handle_departments mail s req db :
  let db' := database_after db (handle mail s req db) in
  departments_serial db' = departments_serial db
  /\ map fixed_part (departments db') = map fixed_part (departments db)
  \/ departments db = []
     /\ map fixed_part (departments db')
        = [ (departments_serial db, "CS", 300);
            (departments_serial db + 1, "Mechanical", 100);
            (departments_serial db + 1 + 1, "Civil", 100) ].
Proof.
  destruct req as [|post| |post|dept]; simpl.
  - unfold home. destruct (departments db) as [|d0 ds] eqn:Hd; simpl.
    + right. split; [reflexivity|]. rewrite Hd. reflexivity.
    + left. rewrite Hd. auto.
  - left. unfold student_signin_required, application_form.
    destruct (student s) as [[student_id username]|]; [|auto].
    destruct (first (applications_of_student student_id db)); [auto|].
    destruct post as [form|]; [|auto].
    now destruct (stored_form student_id form).
  - left. unfold student_signin_required, application_status.
    destruct (student s) as [[student_id username]|]; [|auto].
    now destruct (first (applications_of_student student_id db)).
  - left. unfold admin_signin_required.
    destruct (admin s) as [[admin_id admin_name]|] eqn:Hadmin; [|auto].
    destruct post as [[student_id status]|].
    + fold (reviewed mail student_id status s db).
      destruct (reviewed_cases mail student_id status s db)
        as [[_ ->]|[a [Hfound [[Hst [stored [Hstored [Hne ->]]]]
                          |[[_ [_ ->]]|[[_ [_ ->]]|[_ [d [Hd ->]]]]]]]]]; auto.
      destruct (Department.filled_seats d <? Department.total_seats d); auto.
      split; [reflexivity|].
      apply (fixed_part_increment d (update_document_status a "Approved" db)).
    + unfold approve_documents. rewrite Hadmin. auto.
  - left. unfold admin_signin_required. now destruct (admin s).
Qed.

Lemma departments_bootstrapped db :
  reachable db ->
  (departments db = [] /\ departments_serial db = 1)
  \/ map fixed_part (departments db) = bootstrap_departments.
Proof.
  induction 1 as [|db mail s req _ IH _]; [left; auto|].
  destruct (handle_departments mail s req db) as [[Hserial Hfixed]|[Hempty Hfixed]].
  - destruct IH as [[Hd Hs]|IH].
    + left. split; [|congruence]. rewrite Hd in Hfixed.
      now destruct (departments (database_after db (handle mail s req db))).
    + right. congruence.
  - right. destruct IH as [[_ Hs]|IH].
    + rewrite Hfixed, Hs. reflexivity.
    + rewrite Hempty in IH. discriminate IH.
Qed.

(** X5. The departments of a reachable database are none, or exactly CS,
    Mechanical and Civil with the identifiers 1, 2, 3 and 300, 100 and 100
    seats: no view adds a fourth department, removes or renames one, or
    changes a capacity. *)
Theorem departments_are_the_bootstrap_ones db :
  reachable db ->
  departments db = [] \/ map fixed_part (departments db) = bootstrap_departments.
Proof.
  intros H. destruct (departments_bootstrapped db H) as [[Hd _]|Hb]; auto.
Qed.

Lemma departments_are_the_bootstrap_ones_witness :
  reachable approved_once
  /\ map fixed_part (departments approved_once) = bootstrap_departments.
Proof.
  assert (H : reachable approved_once)
    by (apply reachable_serve; apply reachable_empty).
  split; [exact H|].
  destruct (departments_are_the_bootstrap_ones approved_once H) as [Hd|Hb];
    [discriminate Hd | exact Hb].
Defined.

Lemma first_filter_none {A : Type} (p : A -> bool) (rows : list A) :
  (forall row, In row rows -> p row = false) -> first (filter p rows) = None.
Proof.
  intros H. destruct (filter p rows) as [|row l] eqn:E; [reflexivity|].
  assert (Hin : In row (filter p rows)) by (rewrite E; now left).
  apply filter_In in Hin. destruct Hin as [Hin Hp]. rewrite (H row Hin) in Hp.
  discriminate.
Qed.

Lemma filter_none {A : Type} (p : A -> bool) (rows : list A) :
  (forall row, In row rows -> p row = false) -> filter p rows = [].
Proof.
  intros H. induction rows as [|r rows IH]; simpl; [reflexivity|].
  rewrite (H r (or_introl eq_refl)). apply IH. intros row Hin. apply H. now right.
Qed.

Lemma bootstrap_department d db :
  map fixed_part (departments db) = bootstrap_departments ->
  In d (departments db) ->
  fixed_part d = (1, "CS", 300) \/ fixed_part d = (2, "Mechanical", 100)
  \/ fixed_part d = (3, "Civil", 100).
Proof.
  intros Hb Hin. apply (in_map fixed_part) in Hin. rewrite Hb in Hin.
  destruct Hin as [H|[H|[H|[]]]]; auto.
Qed.

(** X6. An application for a department other than CS, Mechanical and Civil
    can never be approved: in a reachable database its document status is
    not [Approved], and a review that approves it raises on the missing
    department (after the approval mail) and writes nothing. *)
Theorem other_department_is_never_approved mail s db student_id a :
  reachable db ->
  first (applications_of_student student_id db) = Some a ->
  Application.department a <> "CS" ->
  Application.department a <> "Mechanical" ->
  Application.department a <> "Civil" ->
  Application.document_status a <> "Approved"
  /\ approve_documents mail (Some (student_id, "Approved")) s db
     = Raised (AttributeError "filled_seats") (try_send mail (approved_message a)).
Proof.
  intros Hreach Ha Hcs Hmech Hcivil.
  assert (Hnone : forall d, In d (departments db) ->
            Department.department_name d <> Application.department a).
  { intros d Hd. destruct (departments_bootstrapped db Hreach) as [[He _]|Hb].
    - rewrite He in Hd. destruct Hd.
    - destruct (bootstrap_department d db Hb Hd) as [H|[H|H]];
        inversion H; congruence. }
  split.
  - intros Hst. pose proof (reachable_by_consistent _ _ Hreach) as C.
    apply found_application in Ha. destruct Ha as [Hin _].
    destruct (approved_is_allocated db C a Hin Hst) as [Hdep _].
    apply in_map_iff in Hdep. destruct Hdep as [d [Hname Hd]].
    now apply (Hnone d Hd).
  - unfold approve_documents. rewrite Ha. simpl.
    unfold departments_named. rewrite first_filter_none; [reflexivity|].
    intros d Hd. apply String.eqb_neq. now apply Hnone.
Qed.

Lemma other_department_is_never_approved_witness :
  approve_documents delivers (Some (7, "Approved")) admin_session unknown_department
  = Raised (AttributeError "filled_seats")
      [approved_message (new_application 7 (sample_form "Physics" 80 70 60 20) 1)].
Proof.
  assert (H : reachable unknown_department)
    by (apply reachable_serve; apply reachable_empty).
  apply (other_department_is_never_approved delivers admin_session unknown_department 7
           (new_application 7 (sample_form "Physics" 80 70 60 20) 1) H eq_refl);
    discriminate.
Defined.

(** X7. In a reachable database the [Allocated] allocations that reference
    department 1 (CS) are at most 300, those that reference department 2
    (Mechanical) or 3 (Civil) at most 100 each, and no [Allocated] allocation
    references any other department id. *)
Theorem allocated_within_capacity db department_id :
  reachable db -> allocated_count department_id db <= capacity department_id.
Proof.
  intros Hreach. pose proof (reachable_by_consistent _ _ Hreach) as C.
  assert (Hcap : 0 <= capacity department_id).
  { unfold capacity. repeat destruct (_ =? _); lia. }
  destruct (in_dec Z.eq_dec department_id
              (map Department.department_id (departments db))) as [Hin|Hout].
  - apply in_map_iff in Hin. destruct Hin as [d [Hid Hd]].
    rewrite <- Hid, <- (seats_counted db C d Hd).
    pose proof (seats_bounded db C d Hd) as Hbound.
    destruct (departments_bootstrapped db Hreach) as [[He _]|Hb].
    + rewrite He in Hd. destruct Hd.
    + destruct (bootstrap_department d db Hb Hd) as [H|[H|H]];
        inversion H as [[Hi Hn Ht]]; rewrite Hi; unfold capacity; simpl; lia.
  - unfold allocated_count. rewrite filter_none; [simpl; lia|].
    intros al Hal. apply andb_false_iff. left. apply Z.eqb_neq. intros Heq.
    apply Hout. rewrite <- Heq. now apply (allocations_reference_departments db C).
Qed.

Lemma allocated_within_capacity_witness :
  reachable approved_once /\ allocated_count 1 approved_once <= 300.
Proof.
  assert (H : reachable approved_once)
    by (apply reachable_serve; apply reachable_empty).
  split; [exact H|].
  exact (allocated_within_capacity approved_once 1 H).
Defined.

(** ** Approving twice *)

(** X8. Approving the same application twice while its department has two
    free seats fills two seats: both reviews return, each appends an
    [Allocated] allocation for the one application, and the department's
    [filled_seats] has grown by two. *)
Theorem second_approval_takes_second_seat mail1 mail2 s1 s2 db student_id a d :
  first (applications_of_student student_id db) = Some a ->
  first (departments_named (Application.department a) db) = Some d ->
  Department.filled_seats d + 2 <= Department.total_seats d ->
  exists db1 db2 sent1 sent2 d2,
    approve_documents mail1 (Some (student_id, "Approved")) s1 db
      = Returned db1 [] sent1 (redirect "approve_documents")
    /\ approve_documents mail2 (Some (student_id, "Approved")) s2 db1
       = Returned db2 [] sent2 (redirect "approve_documents")
    /\ allocations db2
       = allocations db
         ++ [ Allocation.mk (allocations_serial db) (Application.application_id a)
                (Department.department_id d) "Allocated";
              Allocation.mk (allocations_serial db + 1) (Application.application_id a)
                (Department.department_id d) "Allocated" ]
    /\ first (departments_named (Application.department a) db2) = Some d2
    /\ Department.filled_seats d2 = Department.filled_seats d + 2
    /\ Department.total_seats d2 = Department.total_seats d.
Proof.
  intros Ha Hd Hfree.
  set (d1 := Department.set_filled_seats (Department.filled_seats d + 1) d).
  set (db1 := add_allocation (Application.application_id a) (Department.department_id d)
                "Allocated"
                (increment_filled_seats d (update_document_status a "Approved" db))).
  destruct (found_application_after_update student_id a "Approved" db a Ha)
    as [a1 [Ha1 [Hid Hdep]]].
  assert (Hd1 : first (departments_named (Application.department a1) db1) = Some d1).
  { rewrite Hdep.
    exact (found_department_after_increment _ d (update_document_status a "Approved" db) Hd). }
  set (db2 := add_allocation (Application.application_id a1) (Department.department_id d1)
                "Allocated"
                (increment_filled_seats d1 (update_document_status a1 "Approved" db1))).
  exists db1, db2. eexists. eexists.
  exists (Department.set_filled_seats (Department.filled_seats d1 + 1) d1).
  split; [|split; [|split; [|split; [|split]]]].
  - unfold approve_documents. rewrite Ha. simpl. rewrite Hd.
    replace (Department.filled_seats d <? Department.total_seats d) with true
      by (symmetry; apply Z.ltb_lt; lia).
    reflexivity.
  - unfold approve_documents.
    change (applications_of_student student_id db1)
      with (applications_of_student student_id (update_document_status a "Approved" db)).
    rewrite Ha1. simpl String.eqb. cbv iota. rewrite Hd1.
    replace (Department.filled_seats d1 <? Department.total_seats d1) with true
      by (symmetry; apply Z.ltb_lt; simpl; lia).
    reflexivity.
  - simpl. rewrite Hid, <- app_assoc. reflexivity.
  - rewrite <- Hdep.
    exact (found_department_after_increment _ d1
             (update_document_status a1 "Approved" db1) Hd1).
  - simpl. lia.
  - reflexivity.
Qed.

Lemma second_approval_takes_second_seat_witness :
  exists db1 db2 sent1 sent2 d2,
    approve_documents delivers (Some (7, "Approved")) admin_session approved_once
      = Returned db1 [] sent1 (redirect "approve_documents")
    /\ approve_documents delivers (Some (7, "Approved")) admin_session db1
       = Returned db2 [] sent2 (redirect "approve_documents")
    /\ first (departments_named "CS" db2) = Some d2
    /\ Department.filled_seats d2 = 3.
Proof.
  destruct (second_approval_takes_second_seat delivers delivers admin_session admin_session
              approved_once 7
              (Application.set_document_status "Approved"
                 (new_application 7 (sample_form "CS" 80 70 60 20) 1))
              (Department.mk 1 "CS" 300 1) eq_refl eq_refl)
    as [db1 [db2 [sent1 [sent2 [d2 [H1 [H2 [_ [H3 [H4 _]]]]]]]]]].
  { simpl. lia. }
  exists db1, db2, sent1, sent2, d2. auto.
Defined.

(** ** Listings after a review *)

Lemma in_pending_by_merit db row :
  In row (pending_by_merit db)
  <-> In row (applications db) /\ Application.document_status row = "Pending".
Proof.
  unfold pending_by_merit. split.
  - intros H. apply (Permutation_in _ (order_by_permutation merit_order _)) in H.
    apply filter_In in H. destruct H as [Hin Hst]. apply String.eqb_eq in Hst. auto.
  - intros [Hin Hst].
    apply (Permutation_in _ (Permutation_sym (order_by_permutation merit_order _))).
    apply filter_In. split; [exact Hin | now apply String.eqb_eq].
Qed.

Lemma stored_status_inr a status stored :
  stored_status a status = inr stored ->
  stored = status \/ String.length stored = 200%nat.
Proof.
  unfold stored_status. destruct (String.eqb status (Application.document_status a)).
  - intros H. injection H as <-. now left.
  - intros H. destruct (stored_text_inr _ _ H) as [_ [_ [->|[Hlen _]]]]; auto.
Qed.

(** A review that returned has rewritten the status of the reviewed
    application, to the posted status as its column stores it, and of no
    other row. *)
Lemma returned_review_applications mail s db student_id status a db' flashed sent r :
  first (applications_of_student student_id db) = Some a ->
  approve_documents mail (Some (student_id, status)) s db = Returned db' flashed sent r ->
  exists stored,
    (stored = status \/ String.length stored = 200%nat)
    /\ applications db' = applications (update_document_status a stored db)
    /\ (allocations db' = allocations db \/ status = "Approved").
Proof.
  intros Ha Hrun.
  assert (Hdb : reviewed mail student_id status s db = db')
    by (unfold reviewed; now rewrite Hrun).
  destruct (reviewed_cases mail student_id status s db)
    as [[Hnone _]|[a0 [Hfound [[Hst [stored [Hstored [_ Heq]]]]
                              |[[Hst [[e He] _]]
                               |[[-> [Hd _]]|[-> [d [Hd Heq]]]]]]]]].
  - congruence.
  - assert (a0 = a) by congruence. subst a0. rewrite Heq in Hdb. subst db'.
    exists stored. split; [now apply (stored_status_inr a)|]. auto.
  - assert (a0 = a) by congruence. subst a0.
    unfold approve_documents in Hrun. rewrite Ha in Hrun.
    destruct (String.eqb status "Rejected") eqn:Hr.
    { apply String.eqb_eq in Hr. subst status. unfold stored_status in He.
      destruct (String.eqb _ _); discriminate He. }
    apply String.eqb_neq in Hst. rewrite Hst, He in Hrun. discriminate Hrun.
  - assert (a0 = a) by congruence. subst a0.
    unfold approve_documents in Hrun. rewrite Ha in Hrun. simpl in Hrun.
    rewrite Hd in Hrun. discriminate Hrun.
  - assert (a0 = a) by congruence. subst a0. rewrite Heq in Hdb. subst db'.
    exists "Approved". split; [now left|]. split; [|now right].
    now destruct (Department.filled_seats d <? Department.total_seats d).
Qed.

(** X9. After a review that returned and stored a status other than
    [Pending], the reviewed application is no longer on the pending-review
    listing, and every other application that was on it still is. *)
Theorem reviewed_application_leaves_pending_listing
    mail s db student_id status a db' flashed sent r :
  first (applications_of_student student_id db) = Some a ->
  status <> "Pending" ->
  approve_documents mail (Some (student_id, status)) s db = Returned db' flashed sent r ->
  forall row,
    In row (pending_by_merit db')
    <-> In row (pending_by_merit db)
        /\ Application.application_id row <> Application.application_id a.
Proof.
  intros Ha Hst Hrun row.
  destruct (returned_review_applications _ _ _ _ _ _ _ _ _ _ Ha Hrun)
    as [stored [Hstored [Happs _]]].
  assert (Hne : stored <> "Pending").
  { destruct Hstored as [->|Hlen]; [exact Hst|]. intros ->. discriminate Hlen. }
  rewrite !in_pending_by_merit, Happs. split.
  - intros [Hin Hp]. apply in_update_document_status in Hin.
    destruct Hin as [row0 [Hin [_ [_ [_ [[_ Hs]|[Hne' ->]]]]]]]; [congruence|auto].
  - intros [[Hin Hp] Hid]. split; [|exact Hp]. simpl. apply in_map_iff.
    exists row. split; [|exact Hin]. apply Z.eqb_neq in Hid. now rewrite Hid.
Qed.

Lemma reviewed_application_leaves_pending_listing_witness :
  In (new_application 7 (sample_form "Physics" 80 70 60 20) 1)
     (pending_by_merit (reviewed delivers 7 "Rejected" admin_session unknown_department))
  <-> In (new_application 7 (sample_form "Physics" 80 70 60 20) 1)
         (pending_by_merit unknown_department)
      /\ Application.application_id (new_application 7 (sample_form "Physics" 80 70 60 20) 1)
         <> 1.
Proof.
  apply (reviewed_application_leaves_pending_listing delivers admin_session
           unknown_department 7 "Rejected"
           (new_application 7 (sample_form "Physics" 80 70 60 20) 1)
           (reviewed delivers 7 "Rejected" admin_session unknown_department)
           [] [rejected_message (new_application 7 (sample_form "Physics" 80 70 60 20) 1)]
           (redirect "approve_documents") eq_refl).
  - discriminate.
  - reflexivity.
Defined.

Lemma in_allocated_by_merit_ids dept db x :
  In x (map Application.application_id (allocated_by_merit dept db))
  <-> exists a al,
        In a (applications db) /\ In al (allocations db)
        /\ Application.application_id a = x /\ Application.department a = dept
        /\ Allocation.application_id al = x
        /\ Allocation.allocation_status al = "Allocated".
Proof.
  unfold allocated_by_merit.
  set (rows := filter (fun row => String.eqb (Application.department (fst row)) dept
                                  && String.eqb (Allocation.allocation_status (snd row))
                                       "Allocated")
                      (join_allocations db)).
  assert (Hrows : forall a al, In (a, al) rows <->
            In a (applications db) /\ In al (allocations db)
            /\ Allocation.application_id al = Application.application_id a
            /\ Application.department a = dept
            /\ Allocation.allocation_status al = "Allocated").
  { intros a al. unfold rows. rewrite filter_In, in_join_allocations. simpl.
    rewrite andb_true_iff, !String.eqb_eq. tauto. }
  split.
  - intros H. apply in_map_iff in H. destruct H as [a [Hid Hin]].
    apply unique_entities_In in Hin.
    apply (Permutation_in _ (order_by_permutation merit_order _)) in Hin.
    apply in_map_iff in Hin. destruct Hin as [[a' al] [Heq Hin]]. simpl in Heq. subst a'.
    apply Hrows in Hin. exists a, al. intuition congruence.
  - intros [a [al [Ha [Hal [Hid [Hdept [Hal_id Hst]]]]]]]. subst x.
    destruct (unique_entities_keeps_keys [] (order_by merit_order (map fst rows)) a)
      as [[]|H]; [|exact H].
    apply (Permutation_in _ (Permutation_sym (order_by_permutation merit_order _))).
    apply in_map_iff. exists (a, al). split; [reflexivity|].
    apply Hrows. auto.
Qed.

(** X10. The merit list of a department does not look at the document
    status: a review that stores anything but [Approved] (a rejection, for
    one) leaves on every merit list exactly the applications that were on
    it, so an application rejected after it got a seat stays listed. *)
Theorem merit_list_survives_rejection mail s db student_id status dept :
  status <> "Approved" ->
  forall x,
    In x (map Application.application_id
            (allocated_by_merit dept (reviewed mail student_id status s db)))
    <-> In x (map Application.application_id (allocated_by_merit dept db)).
Proof.
  intros Hst x.
  destruct (reviewed_cases mail student_id status s db)
    as [[_ ->]|[a [_ [[_ [stored [_ [_ ->]]]]
                     |[[_ [_ ->]]|[[-> _]|[-> _]]]]]]];
    try reflexivity; try congruence.
  rewrite !in_allocated_by_merit_ids. split.
  - intros [row' [al [Hin H]]]. apply in_update_document_status in Hin.
    destruct Hin as [row [Hin [Hid [_ [Hdep _]]]]].
    exists row, al. rewrite <- Hid, <- Hdep. auto.
  - intros [row [al [Hin H]]].
    set (f := fun a0 => if Application.application_id a0 =? Application.application_id a
                        then Application.set_document_status stored a0 else a0).
    exists (f row), al. split.
    + simpl. now apply (in_map f).
    + unfold f. now destruct (Application.application_id row =? _).
Qed.

Lemma merit_list_survives_rejection_witness :
  In 1 (map Application.application_id (allocated_by_merit "CS" approved_then_rejected)).
Proof.
  apply (merit_list_survives_rejection delivers admin_session approved_once 7
           "Rejected" "CS").
  - discriminate.
  - left. reflexivity.
Defined.

(** ** Uploaded documents *)

Lemma first_filter_app {A : Type} (p : A -> bool) (rows added : list A) (row : A) :
  first (filter p rows) = Some row -> first (filter p (rows ++ added)) = Some row.
Proof.
  intros H. rewrite filter_app. now destruct (filter p rows).
Qed.

Lemma found_application_after_update_part student_id a status db b :
  first (applications_of_student student_id db) = Some b ->
  exists b', first (applications_of_student student_id (update_document_status a status db))
             = Some b'
    /\ submitted_part b' = submitted_part b.
Proof.
  intros H. unfold applications_of_student, update_document_status. simpl.
  rewrite first_filter_map
    by (intros row; simpl; now destruct (Application.application_id row =? _)).
  unfold applications_of_student in H. rewrite H. simpl.
  eexists. split; [reflexivity|].
  now destruct (Application.application_id b =? _).
Qed.

(** The application a student is found with keeps what was submitted, whatever
    request is served. *)
Lemma found_application_after_handle mail s req db student_id a :
  first (applications_of_student student_id db) = Some a ->
  exists a',
    first (applications_of_student student_id (database_after db (handle mail s req db)))
    = Some a'
    /\ submitted_part a' = submitted_part a.
Proof.
  intros Ha.
  assert (Hsame : forall db', applications db' = applications db ->
            exists a', first (applications_of_student student_id db') = Some a'
                       /\ submitted_part a' = submitted_part a).
  { intros db' Heq. exists a. unfold applications_of_student in *. rewrite Heq. auto. }
  destruct req as [|post| |post|dept]; simpl.
  - apply Hsame. unfold home. now destruct (departments db).
  - unfold student_signin_required, application_form.
    destruct (student s) as [[other username]|]; [|now apply Hsame].
    destruct (first (applications_of_student other db)); [now apply Hsame|].
    destruct post as [form|]; [|now apply Hsame].
    destruct (stored_form other form) as [e|stored]; [now apply Hsame|].
    exists a. split; [|reflexivity].
    unfold applications_of_student. simpl. now apply first_filter_app.
  - apply Hsame. unfold student_signin_required, application_status.
    destruct (student s) as [[other username]|]; [|reflexivity].
    now destruct (first (applications_of_student other db)).
  - unfold admin_signin_required.
    destruct (admin s) as [[admin_id admin_name]|] eqn:Hadmin; [|now apply Hsame].
    destruct post as [[reviewed_id status]|].
    + fold (reviewed mail reviewed_id status s db).
      destruct (reviewed_cases mail reviewed_id status s db)
        as [[_ ->]|[a0 [_ [[_ [stored [_ [_ ->]]]]
                          |[[_ [_ ->]]|[[_ [_ ->]]|[_ [d [_ ->]]]]]]]]];
        try (now apply Hsame).
      * now apply found_application_after_update_part.
      * destruct (Department.filled_seats d <? Department.total_seats d);
          exact (found_application_after_update_part student_id a0 "Approved" db a Ha).
    + apply Hsame. unfold approve_documents. now rewrite Hadmin.
  - apply Hsame. unfold admin_signin_required. now destruct (admin s).
Qed.

Lemma found_application_after_run requests db student_id a :
  first (applications_of_student student_id db) = Some a ->
  exists a',
    first (applications_of_student student_id (run requests db)) = Some a'
    /\ submitted_part a' = submitted_part a.
Proof.
  revert db a. induction requests as [|[[mail s] req] requests IH]; intros db a Ha; simpl.
  - exists a. auto.
  - destruct (found_application_after_handle mail s req db student_id a Ha)
      as [a1 [Ha1 Hpart1]].
    destruct (IH _ a1 Ha1) as [a' [Ha' Hpart]].
    exists a'. split; [exact Ha'|congruence].
Qed.

Lemma stored_form_documents student_id form stored :
  stored_form student_id form = inr stored ->
  Form.documents stored = Form.documents form.
Proof.
  unfold stored_form. destruct (_ || _); [discriminate|].
  destruct (fit 200 (Form.name form)); [|discriminate].
  destruct (fit 200 (Form.gender form)); [|discriminate].
  destruct (fit 200 (Form.email form)); [|discriminate].
  destruct (fit 200 (Form.department form)); [|discriminate].
  destruct (_ && _); [|discriminate].
  intros H. injection H as <-. reflexivity.
Qed.

(** The first submission of a student, when the columns take the form. *)
Lemma first_submission mail s student_id username form stored db :
  student s = Some (student_id, username) ->
  first (applications_of_student student_id db) = None ->
  stored_form student_id form = inr stored ->
  database_after db (handle mail s (application_form_request (Some form)) db)
  = add_application (new_application student_id stored) db
  /\ first (applications_of_student student_id
              (add_application (new_application student_id stored) db))
     = Some (new_application student_id stored (applications_serial db)).
Proof.
  intros Hs Hnone Hstored. split.
  - simpl. unfold student_signin_required, application_form.
    now rewrite Hs, Hnone, Hstored.
  - unfold applications_of_student in *. simpl. rewrite filter_app.
    destruct (filter _ (applications db)); [|discriminate Hnone].
    simpl. now rewrite Z.eqb_refl.
Qed.

(** X11. The documents a student uploads with the application form are the
    documents the admin downloads: after the submission of a student without
    application whose form the columns take, and after any further requests
    (reviews and submissions of others included), [view_aadhaar] for that
    student answers a PDF whose body is the uploaded file. *)
Theorem uploaded_documents_are_served
    mail mail' student_s admin_s student_id username form stored requests db :
  student student_s = Some (student_id, username) ->
  first (applications_of_student student_id db) = None ->
  stored_form student_id form = inr stored ->
  admin admin_s <> None ->
  visit mail' admin_s (view_aadhaar_route student_id)
    (run requests
       (database_after db
          (handle mail student_s (application_form_request (Some form)) db)))
  = document (Form.documents form) "application/pdf" [("Content-Disposition", "inline")].
Proof.
  intros Hs Hnone Hstored Hadmin.
  destruct (first_submission mail student_s student_id username form stored db
              Hs Hnone Hstored) as [-> Hnew].
  destruct (found_application_after_run requests _ student_id _ Hnew) as [a' [Ha' Hpart]].
  simpl. destruct (admin admin_s); [|now contradiction Hadmin].
  unfold view_aadhaar. rewrite Ha'.
  apply (f_equal Application.documents) in Hpart. simpl in Hpart.
  now rewrite Hpart, (stored_form_documents _ _ _ Hstored).
Qed.

Lemma uploaded_documents_are_served_witness :
  visit delivers admin_session (view_aadhaar_route 7)
    (run [ (bounces, admin_session, approve_documents_request (Some (7, "Approved")));
           (delivers, admin_session, approve_documents_request (Some (7, "Rejected"))) ]
       (database_after empty_database
          (handle delivers (student_session 7)
             (application_form_request (Some sample_upload)) empty_database)))
  = document (Form.documents sample_upload) "application/pdf"
      [("Content-Disposition", "inline")].
Proof.
  apply (uploaded_documents_are_served delivers delivers (student_session 7)
           admin_session 7 "student" sample_upload sample_upload).
  - reflexivity.
  - reflexivity.
  - reflexivity.
  - discriminate.
Defined.

(** X12. For a signed-in admin [view_aadhaar] answers 404 exactly when no
    application row carries the student id of the URL; otherwise it answers
    a document. *)
Theorem download_is_not_found_without_application mail s student_id db :
  admin s <> None ->
  (visit mail s (view_aadhaar_route student_id) db = abort 404
   <-> forall a, In a (applications db) -> Application.student_id a <> student_id).
Proof.
  intros Hadmin. simpl. destruct (admin s); [|now contradiction Hadmin].
  unfold view_aadhaar, applications_of_student. split.
  - intros H a Hin Hid.
    destruct (first_filter_exists (fun a => Application.student_id a =? student_id)
                (applications db) a Hin) as [a' Ha'].
    { now apply Z.eqb_eq. }
    rewrite Ha' in H. discriminate H.
  - intros Hnone. rewrite first_filter_none; [reflexivity|].
    intros a Hin. apply Z.eqb_neq. now apply Hnone.
Qed.

Lemma download_is_not_found_without_application_witness :
  visit delivers admin_session (view_aadhaar_route 9) approved_once = abort 404.
Proof.
  apply (download_is_not_found_without_application delivers admin_session 9 approved_once);
    [discriminate|].
  intros a [<-|[]]. discriminate.
Defined.

(** ** Accounts *)

Lemma found_student username acc st :
  first (students_named username acc) = Some st ->
  In st (students acc) /\ Student.student_username st = username.
Proof.
  intros H. apply first_filter_Some in H. destruct H as [Hin Heq].
  apply String.eqb_eq in Heq. auto.
Qed.

(** What an account request does to the [students] table: nothing, or one row
    appended for a user name that was free, with the user name and the hash
    as their columns store them. *)
Lemma sign_students sha req s acc :
  let acc' := accounts_left acc (sign sha req s acc) in
  (students acc' = students acc /\ students_serial acc' = students_serial acc)
  \/ exists username password stored_username stored_hash,
       req = student_signup_request (Some (username, password))
       /\ has_nul username = false
       /\ first (students_named username acc) = None
       /\ fit 200 username = Some stored_username
       /\ stored_text (sha password) = inr stored_hash
       /\ students acc'
          = students acc ++ [Student.mk (students_serial acc) stored_username stored_hash]
       /\ students_serial acc' = students_serial acc + 1.
Proof.
  destruct req as [post|post|post|]; simpl.
  - left. unfold student_signin. destruct post as [[username password]|]; [|auto].
    destruct (first (students_named username acc)) as [st|]; [|auto].
    now destruct (negb _).
  - unfold student_signup. destruct post as [[username password]|]; [|now left].
    destruct (has_nul username) eqn:Hnul; [now left|].
    destruct (first (students_named username acc)) as [st|] eqn:Hfirst; [now left|].
    destruct (has_nul (sha password)) eqn:Hnulh; [now left|].
    destruct (fit 200 username) as [u|] eqn:Hu; [|now left].
    destruct (fit 200 (sha password)) as [h|] eqn:Hh; [|now left].
    right. exists username, password, u, h. repeat split; auto.
    unfold stored_text. now rewrite Hnulh, Hh.
  - left. unfold admin_signin.
    destruct (first (admins_named "admin" acc));
      destruct post as [[username password]|]; simpl; auto;
      match goal with
      | |- context [first ?l] => destruct (first l) as [ad|]; auto
      end; now destruct (negb _).
  - left. auto.
Qed.

Lemma found_student_after_sign sha req s acc username st :
  first (students_named username acc) = Some st ->
  first (students_named username (accounts_left acc (sign sha req s acc))) = Some st.
Proof.
  intros H. unfold students_named in *.
  destruct (sign_students sha req s acc)
    as [[-> _]|[u [p [su [sh [_ [_ [_ [_ [_ [-> _]]]]]]]]]]]; [exact H|].
  now apply first_filter_app.
Qed.

Lemma found_student_after_sign_all sha requests acc username st :
  first (students_named username acc) = Some st ->
  first (students_named username (sign_all sha requests acc)) = Some st.
Proof.
  revert acc. induction requests as [|[req s] requests IH]; intros acc H; simpl.
  - exact H.
  - apply IH. now apply found_student_after_sign.
Qed.

(** X13. Signing up and signing in round-trip: a sign-up with a free user
    name of at most 200 characters without NUL, whose password hash fits its
    column likewise (a SHA-256 digest in hexadecimal has 64 characters), is
    accepted; after it, and after any further account requests, signing in
    with the same user name and password is accepted, as the student whose
    id the sign-up issued, and leads to the student dashboard; the admin half
    of the session is untouched. *)
Theorem signup_then_signin sha username password s1 s2 requests acc :
  first (students_named username acc) = None ->
  has_nul username = false -> (String.length username <= 200)%nat ->
  has_nul (sha password) = false -> (String.length (sha password) <= 200)%nat ->
  exists signed_up,
    student_signup sha (Some (username, password)) s1 acc = inr signed_up
    /\ reply signed_up = redirect "student_signin"
    /\ session_after signed_up = s1
    /\ students (accounts_after signed_up)
       = students acc ++ [Student.mk (students_serial acc) username (sha password)]
    /\ let signed_in :=
         student_signin sha (Some (username, password)) s2
           (sign_all sha requests (accounts_after signed_up)) in
       session_after signed_in = mksession (Some (students_serial acc, username)) (admin s2)
       /\ reply signed_in = redirect "student_dashboard".
Proof.
  intros Hfree Hnul Hlen Hnulh Hlenh.
  assert (Hup : student_signup sha (Some (username, password)) s1 acc
                = inr (mksigned s1 (add_student username (sha password) acc)
                         [("Account Created, Sign In to continue", "success")]
                         (redirect "student_signin"))).
  { unfold student_signup, fit. rewrite Hnul, Hfree, Hnulh.
    apply Nat.leb_le in Hlen. apply Nat.leb_le in Hlenh. now rewrite Hlen, Hlenh. }
  eexists. split; [exact Hup|]. cbn [accounts_after reply session_after].
  split; [reflexivity|]. split; [reflexivity|]. split; [reflexivity|].
  assert (Hnew : first (students_named username (add_student username (sha password) acc))
                 = Some (Student.mk (students_serial acc) username (sha password))).
  { unfold students_named in *. simpl. rewrite filter_app.
    destruct (filter _ (students acc)); [|discriminate Hfree].
    simpl. now rewrite String.eqb_refl. }
  apply (found_student_after_sign_all sha requests) in Hnew.
  unfold student_signin. rewrite Hnew. simpl. rewrite String.eqb_refl. simpl. auto.
Qed.

Lemma signup_then_signin_witness :
  exists signed_up,
    student_signup sample_hash (Some ("asha", "secret")) (mksession None None) no_accounts
    = inr signed_up
    /\ session_after
         (student_signin sample_hash (Some ("asha", "secret")) (mksession None None)
            (sign_all sample_hash
               [ (student_signup_request (Some ("ravi", "secret")), mksession None None);
                 (admin_signin_request None, mksession None None) ]
               (accounts_after signed_up)))
       = mksession (Some (1, "asha")) None.
Proof.
  destruct (signup_then_signin sample_hash "asha" "secret" (mksession None None)
              (mksession None None)
              [ (student_signup_request (Some ("ravi", "secret")), mksession None None);
                (admin_signin_request None, mksession None None) ]
              no_accounts eq_refl eq_refl)
    as [signed_up [Hup [_ [_ [_ [Hin _]]]]]].
  - simpl. lia.
  - reflexivity.
  - simpl. lia.
  - exists signed_up. split; [exact Hup | exact Hin].
Defined.

(** X14. [student_signin] changes the student of the session only for a
    posted user name and password such that the first student row with that
    user name stores the hash of that password; the new session then carries
    that row's id and user name.  In every case the accounts and the admin
    half of the session are left as they were. *)
Theorem student_signin_needs_matching_hash sha post s acc :
  let signed_in := student_signin sha post s acc in
  accounts_after signed_in = acc
  /\ admin (session_after signed_in) = admin s
  /\ (session_after signed_in <> s ->
      exists username password st,
        post = Some (username, password)
        /\ first (students_named username acc) = Some st
        /\ Student.student_password_hash_hex st = sha password
        /\ session_after signed_in
           = mksession (Some (Student.student_id st, username)) (admin s)).
Proof.
  unfold student_signin. destruct post as [[username password]|]; simpl.
  - destruct (first (students_named username acc)) as [st|] eqn:Hst; simpl.
    + destruct (String.eqb (sha password) (Student.student_password_hash_hex st)) eqn:Hh;
        simpl.
      * apply String.eqb_eq in Hh. repeat split. intros _.
        exists username, password, st.
        destruct (found_student _ _ _ Hst) as [_ Hname]. rewrite Hname. auto.
      * repeat split. intros H. now contradiction H.
    + repeat split. intros H. now contradiction H.
  - repeat split. intros H. now contradiction H.
Qed.

Lemma students_well_keyed sha acc :
  reachable_accounts sha acc ->
  NoDup (map Student.student_id (students acc))
  /\ (forall st, In st (students acc) -> Student.student_id st < students_serial acc)
  /\ (forall st, In st (students acc) ->
        has_nul (Student.student_username st) = false
        /\ (String.length (Student.student_username st) <= 200)%nat)
  /\ (forall st1 st2, In st1 (students acc) -> In st2 (students acc) ->
        Student.student_username st1 = Student.student_username st2 ->
        (String.length (Student.student_username st1) < 200)%nat ->
        st1 = st2).
Proof.
  induction 1 as [|acc req s _ [IHids [IHissued [IHstored IHshort]]]].
  - simpl. split; [constructor|]. repeat split; contradiction.
  - destruct (sign_students sha req s acc)
      as [[-> ->]|[username [password [u [h [_ [Hnul [Hfree [Hu [_ [-> ->]]]]]]]]]]];
      [auto|].
    assert (Hfresh : forall st, In st (students acc) ->
              Student.student_username st = u -> (String.length u < 200)%nat -> False).
    { intros st Hin Hname Hlen.
      destruct (fit_Some _ _ _ Hu) as [[-> _]|[Hcut _]]; [|lia].
      pose proof (first_filter_None _ _ Hfree st Hin) as Hf. simpl in Hf.
      apply String.eqb_neq in Hf. contradiction. }
    split; [|split; [|split]].
    + rewrite map_app. simpl. apply NoDup_snoc; [exact IHids|].
      rewrite in_map_iff. intros [st [Hid Hin]]. apply IHissued in Hin. lia.
    + intros st Hin. apply in_app_iff in Hin. destruct Hin as [Hin|[<-|[]]]; simpl.
      * apply IHissued in Hin. lia.
      * lia.
    + intros st Hin. apply in_app_iff in Hin. destruct Hin as [Hin|[<-|[]]]; simpl.
      * now apply IHstored.
      * destruct (fit_Some _ _ _ Hu) as [[-> Hlen]|[Hlen [_ Heq]]].
        -- auto.
        -- split; [rewrite Heq; now apply has_nul_substring | lia].
    + intros st1 st2 Hin1 Hin2 Hname Hlen.
      apply in_app_iff in Hin1. apply in_app_iff in Hin2.
      destruct Hin1 as [Hin1|[<-|[]]]; destruct Hin2 as [Hin2|[<-|[]]]; simpl in *.
      * now apply IHshort.
      * exfalso. apply (Hfresh st1 Hin1 Hname). now rewrite <- Hname.
      * exfalso. apply (Hfresh st2 Hin2 (eq_sym Hname) Hlen).
      * reflexivity.
Qed.

(** X15. In accounts reached from the empty tables no two students share an
    id, every stored user name has at most 200 characters, no two students
    share a user name of fewer than 200 characters, and a sign-up with a
    user name that is taken is turned away with the flash of the duplicate
    and adds no student. *)
Theorem usernames_are_unique sha acc username password s :
  reachable_accounts sha acc ->
  NoDup (map Student.student_id (students acc))
  /\ (forall st, In st (students acc) ->
        (String.length (Student.student_username st) <= 200)%nat)
  /\ (forall st1 st2, In st1 (students acc) -> In st2 (students acc) ->
        Student.student_username st1 = Student.student_username st2 ->
        (String.length (Student.student_username st1) < 200)%nat ->
        st1 = st2)
  /\ (In username (map Student.student_username (students acc)) ->
      student_signup sha (Some (username, password)) s acc
      = inr (mksigned s acc [("User already exists", "danger")]
               (redirect "student_signup"))).
Proof.
  intros Hreach.
  destruct (students_well_keyed sha acc Hreach) as [Hids [_ [Hstored Hshort]]].
  split; [exact Hids|]. split; [intros st Hin; now apply Hstored|].
  split; [exact Hshort|].
  intros Hin. apply in_map_iff in Hin. destruct Hin as [st [Hname Hin]].
  destruct (first_filter_exists
              (fun st => String.eqb (Student.student_username st) username)
              (students acc) st Hin) as [st' Hst'].
  { now apply String.eqb_eq. }
  destruct (Hstored st Hin) as [Hnul _]. rewrite Hname in Hnul.
  unfold student_signup, students_named. now rewrite Hnul, Hst'.
Qed.

Lemma usernames_are_unique_witness :
  student_signup sample_hash (Some ("asha", "other")) (mksession None None)
    (accounts_left no_accounts
       (student_signup sample_hash (Some ("asha", "secret")) (mksession None None)
          no_accounts))
  = inr (mksigned (mksession None None)
           (accounts_left no_accounts
              (student_signup sample_hash (Some ("asha", "secret")) (mksession None None)
                 no_accounts))
           [("User already exists", "danger")] (redirect "student_signup")).
Proof.
  apply (usernames_are_unique sample_hash).
  - apply (reachable_sign sample_hash no_accounts
             (student_signup_request (Some ("asha", "secret"))) (mksession None None)).
    apply reachable_no_accounts.
  - left. reflexivity.
Defined.

(** X21. A user name of more than 200 characters whose excess is spaces can
    be signed up twice: the lookup compares the name as posted, which no
    stored name equals, and the column stores its first 200 characters; both
    sign-ups are accepted and leave two students with the same stored user
    name. *)
Theorem long_user_name_signs_up_twice sha acc username password h s1 s2 :
  reachable_accounts sha acc ->
  has_nul username = false ->
  (200 < String.length username)%nat ->
  only_spaces (substring 200 (String.length username - 200) username) = true ->
  stored_text (sha password) = inr h ->
  exists r1 r2,
    student_signup sha (Some (username, password)) s1 acc = inr r1
    /\ student_signup sha (Some (username, password)) s2 (accounts_after r1) = inr r2
    /\ reply r1 = redirect "student_signin"
    /\ reply r2 = redirect "student_signin"
    /\ students (accounts_after r2)
       = students acc
         ++ [ Student.mk (students_serial acc) (substring 0 200 username) h;
              Student.mk (students_serial acc + 1) (substring 0 200 username) h ].
Proof.
  intros Hreach Hnul Hlong Hspaces Hhash.
  destruct (students_well_keyed sha acc Hreach) as [_ [_ [Hstored _]]].
  assert (Hfit : fit 200 username = Some (substring 0 200 username)).
  { unfold fit. apply Nat.leb_gt in Hlong. now rewrite Hlong, Hspaces. }
  assert (Hh : has_nul (sha password) = false /\ fit 200 (sha password) = Some h).
  { unfold stored_text in Hhash. destruct (has_nul (sha password)); [discriminate|].
    destruct (fit 200 (sha password)); [|discriminate]. injection Hhash as ->. auto. }
  destruct Hh as [Hnulh Hfith].
  assert (Hfree : forall rows,
            (forall st, In st rows ->
               (String.length (Student.student_username st) <= 200)%nat) ->
            first (filter (fun st => String.eqb (Student.student_username st) username)
                          rows) = None).
  { intros rows Hrows. apply first_filter_none. intros st Hin.
    apply String.eqb_neq. intros Heq. apply Hrows in Hin. rewrite Heq in Hin. lia. }
  assert (Hup : forall s acc',
            (forall st, In st (students acc') ->
               (String.length (Student.student_username st) <= 200)%nat) ->
            student_signup sha (Some (username, password)) s acc'
            = inr (mksigned s (add_student (substring 0 200 username) h acc')
                     [("Account Created, Sign In to continue", "success")]
                     (redirect "student_signin"))).
  { intros s acc' Hrows. unfold student_signup, students_named.
    now rewrite Hnul, (Hfree _ Hrows), Hnulh, Hfit, Hfith. }
  eexists. eexists. split; [apply Hup; intros st Hin; now apply Hstored|].
  cbn [accounts_after]. split.
  - apply Hup. simpl. intros st Hin. apply in_app_iff in Hin.
    destruct Hin as [Hin|[<-|[]]]; [now apply Hstored|].
    simpl. rewrite substring_length; lia.
  - simpl. rewrite <- app_assoc. auto.
Qed.

Lemma long_user_name_signs_up_twice_witness :
  exists r1 r2,
    student_signup sample_hash (Some (long_name, "secret")) (mksession None None)
      no_accounts = inr r1
    /\ student_signup sample_hash (Some (long_name, "secret")) (mksession None None)
         (accounts_after r1) = inr r2
    /\ map Student.student_username (students (accounts_after r2))
       = [substring 0 200 long_name; substring 0 200 long_name].
Proof.
  destruct (long_user_name_signs_up_twice sample_hash no_accounts long_name "secret"
              (sample_hash "secret") (mksession None None) (mksession None None)
              (reachable_no_accounts sample_hash) eq_refl)
    as [r1 [r2 [H1 [H2 [_ [_ H3]]]]]].
  - apply Nat.ltb_lt. reflexivity.
  - reflexivity.
  - reflexivity.
  - exists r1, r2. split; [exact H1|]. split; [exact H2|]. rewrite H3. reflexivity.
Defined.

(** User names are not unique in general: the accounts after the two
    sign-ups of [long_name] are reachable and hold the same user name twice. *)
Lemma user_names_can_repeat :
  ~ (forall acc, reachable_accounts sample_hash acc ->
       NoDup (map Student.student_username (students acc))).
Proof.
  intros claim.
  set (signup := student_signup_request (Some (long_name, "secret"))).
  pose proof (claim _ (reachable_sign sample_hash _ signup (mksession None None)
                         (reachable_sign sample_hash _ signup (mksession None None)
                            (reachable_no_accounts sample_hash)))) as Hnodup.
  vm_compute in Hnodup. inversion Hnodup as [|x l Hnotin _]. apply Hnotin. now left.
Qed.

(** The default admin. *)
Lemma admins_are_the_default sha acc :
  reachable_accounts sha acc ->
  (admins acc = [] /\ admins_serial acc = 1)
  \/ admins acc = [Admin.mk 1 "admin" "12345"].
Proof.
  induction 1 as [|acc req s _ IH]; [left; auto|].
  destruct req as [post|post|post|]; simpl.
  - unfold student_signin. destruct post as [[username password]|]; [|exact IH].
    destruct (first (students_named username acc)) as [st|]; [|exact IH].
    now destruct (negb _).
  - unfold student_signup. destruct post as [[username password]|]; [|exact IH].
    destruct (has_nul username); [exact IH|].
    destruct (first (students_named username acc)); [exact IH|].
    destruct (has_nul (sha password)); [exact IH|].
    destruct (fit 200 username); [|exact IH].
    now destruct (fit 200 (sha password)).
  - right.
    assert (Hacc1 : admins (match first (admins_named "admin" acc) with
                            | None => add_admin "admin" "12345" acc
                            | Some _ => acc
                            end) = [Admin.mk 1 "admin" "12345"]).
    { unfold admins_named. destruct IH as [[He Hs]|Hd].
      - rewrite He. simpl. rewrite He, Hs. reflexivity.
      - rewrite Hd. simpl. exact Hd. }
    unfold admin_signin. destruct post as [[username password]|]; [|exact Hacc1].
    match goal with
    | |- context [first ?l] => destruct (first l) as [ad|]; [|exact Hacc1]
    end.
    now destruct (negb _).
  - exact IH.
Qed.

(** X16. Whatever accounts have been reached, [admin_signin] leaves exactly
    one admin, [admin] with the password [12345] and id 1, and a posted
    sign-in is accepted (the session gets that admin, the response is the
    redirect to the admin dashboard) exactly for that user name and password;
    any other pair leaves the session as it was. *)
Theorem default_admin_is_the_only_admin sha acc username password s :
  reachable_accounts sha acc ->
  let signed_in := admin_signin (Some (username, password)) s acc in
  admins (accounts_after signed_in) = [Admin.mk 1 "admin" "12345"]
  /\ (username = "admin" /\ password = "12345" ->
      session_after signed_in = mksession (student s) (Some (1, "admin"))
      /\ reply signed_in = redirect "admin_dashboard")
  /\ (~ (username = "admin" /\ password = "12345") ->
      session_after signed_in = s /\ reply signed_in = redirect "admin_signin").
Proof.
  intros Hreach. cbv zeta. unfold admin_signin.
  set (acc1 := match first (admins_named "admin" acc) with
               | None => add_admin "admin" "12345" acc
               | Some _ => acc
               end).
  assert (Hacc1 : admins acc1 = [Admin.mk 1 "admin" "12345"]).
  { unfold acc1, admins_named.
    destruct (admins_are_the_default sha acc Hreach) as [[He Hs]|Hd].
    - rewrite He. simpl. rewrite He, Hs. reflexivity.
    - rewrite Hd. simpl. exact Hd. }
  assert (Hfirst : first (admins_named username acc1)
                   = if String.eqb "admin" username
                     then Some (Admin.mk 1 "admin" "12345") else None).
  { unfold admins_named. rewrite Hacc1. cbn [filter Admin.admin_username].
    now destruct (String.eqb "admin" username). }
  rewrite Hfirst. clearbody acc1.
  destruct (String.eqb "admin" username) eqn:Hu.
  - apply String.eqb_eq in Hu. subst username.
    cbn [Admin.admin_password Admin.admin_id Admin.admin_username].
    destruct (String.eqb password "12345") eqn:Hp.
    + apply String.eqb_eq in Hp. subst password.
      split; [exact Hacc1|]. split; [auto|]. intros Hne. contradiction Hne. auto.
    + apply String.eqb_neq in Hp.
      split; [exact Hacc1|]. split; [|auto]. intros [_ Heq]. contradiction.
  - apply String.eqb_neq in Hu.
    split; [exact Hacc1|]. split; [|auto]. intros [Heq _]. congruence.
Qed.

Lemma default_admin_is_the_only_admin_witness :
  session_after (admin_signin (Some ("admin", "12345")) (mksession None None) no_accounts)
  = mksession None (Some (1, "admin")).
Proof.
  exact (proj1 (proj1 (proj2
    (default_admin_is_the_only_admin sample_hash no_accounts "admin" "12345"
       (mksession None None) (reachable_no_accounts sample_hash)))
    (conj eq_refl eq_refl))).
Defined.

(** X17. [logout] ends both roles: with the session it leaves, every route
    under [admin_signin_required] or [student_signin_required] answers with
    the sign-in flash and the redirect to the home page; the accounts are
    untouched. *)
Theorem logout_ends_both_roles mail s acc r db :
  admin_only r = true \/ student_only r = true ->
  accounts_after (logout s acc) = acc
  /\ visit mail (session_after (logout s acc)) r db = turned_away db.
Proof.
  intros Hr. split; [reflexivity|].
  destruct r as [[|post| |post|dept]| | | | |student_id];
    destruct Hr as [Hr|Hr]; try discriminate Hr; reflexivity.
Qed.

Lemma logout_ends_both_roles_witness :
  visit delivers (session_after (logout admin_session no_accounts))
    (handled (approve_documents_request (Some (7, "Approved")))) approved_once
  = turned_away approved_once.
Proof.
  exact (proj2 (logout_ends_both_roles delivers admin_session no_accounts
                  (handled (approve_documents_request (Some (7, "Approved"))))
                  approved_once (or_introl eq_refl))).
Defined.

(** X18. Two accepted student sign-ins under different user names carry
    different student ids in their sessions, so the one-application guard of
    [application_form], which goes by the session's student id, keeps the
    accounts apart. *)
Theorem distinct_accounts_have_distinct_ids sha acc u1 p1 u2 p2 s1 s2 :
  reachable_accounts sha acc ->
  reply (student_signin sha (Some (u1, p1)) s1 acc) = redirect "student_dashboard" ->
  reply (student_signin sha (Some (u2, p2)) s2 acc) = redirect "student_dashboard" ->
  u1 <> u2 ->
  exists id1 id2,
    student (session_after (student_signin sha (Some (u1, p1)) s1 acc)) = Some (id1, u1)
    /\ student (session_after (student_signin sha (Some (u2, p2)) s2 acc)) = Some (id2, u2)
    /\ id1 <> id2.
Proof.
  intros Hreach H1 H2 Hne. unfold student_signin in *.
  destruct (first (students_named u1 acc)) as [st1|] eqn:Hst1; [|discriminate H1].
  destruct (first (students_named u2 acc)) as [st2|] eqn:Hst2; [|discriminate H2].
  destruct (negb (String.eqb (sha p1) (Student.student_password_hash_hex st1)));
    [discriminate H1|].
  destruct (negb (String.eqb (sha p2) (Student.student_password_hash_hex st2)));
    [discriminate H2|].
  apply found_student in Hst1. destruct Hst1 as [Hin1 Hname1].
  apply found_student in Hst2. destruct Hst2 as [Hin2 Hname2].
  exists (Student.student_id st1), (Student.student_id st2). simpl.
  rewrite Hname1, Hname2. split; [reflexivity|]. split; [reflexivity|].
  intros Hid. destruct (students_well_keyed sha acc Hreach) as [Hids _].
  assert (st1 = st2) by
    (apply (NoDup_map_eq Student.student_id (students acc)); auto).
  congruence.
Qed.

Lemma distinct_accounts_have_distinct_ids_witness :
  exists id1 id2,
    student (session_after
               (student_signin sample_hash (Some ("asha", "secret")) (mksession None None)
                  (sign_all sample_hash
                     [ (student_signup_request (Some ("asha", "secret")), mksession None None);
                       (student_signup_request (Some ("ravi", "hidden")), mksession None None) ]
                     no_accounts)))
    = Some (id1, "asha")
    /\ student (session_after
                  (student_signin sample_hash (Some ("ravi", "hidden")) (mksession None None)
                     (sign_all sample_hash
                        [ (student_signup_request (Some ("asha", "secret")), mksession None None);
                          (student_signup_request (Some ("ravi", "hidden")), mksession None None) ]
                        no_accounts)))
       = Some (id2, "ravi")
    /\ id1 <> id2.
Proof.
  apply (distinct_accounts_have_distinct_ids sample_hash).
  - apply (reachable_sign sample_hash _
             (student_signup_request (Some ("ravi", "hidden"))) (mksession None None)).
    apply (reachable_sign sample_hash _
             (student_signup_request (Some ("asha", "secret"))) (mksession None None)).
    apply reachable_no_accounts.
  - reflexivity.
  - reflexivity.
  - discriminate.
Defined.

(** ** From the form to the listings *)

(** X19. A first submission round-trips: when the columns take the form,
    right after the submission the new application is on the pending-review
    listing, and the student's status page shows the name as stored (the
    submitted name, when the form fits the columns as it is), [Pending] and
    the pending message. *)
Theorem submitted_application_is_pending
    mail mail' s student_id username form stored db :
  student s = Some (student_id, username) ->
  first (applications_of_student student_id db) = None ->
  stored_form student_id form = inr stored ->
  let db' := database_after db (handle mail s (application_form_request (Some form)) db) in
  In (new_application student_id stored (applications_serial db)) (pending_by_merit db')
  /\ handle mail' s application_status_request db'
     = Returned db' [] []
         (render_template "application_status.html"
            (application_status_context (Form.name stored) "Pending"
               "Document verification is pending"))
  /\ (fits_columns student_id form = true -> stored = form).
Proof.
  intros Hs Hnone Hstored. cbv zeta.
  destruct (first_submission mail s student_id username form stored db Hs Hnone Hstored)
    as [-> Hnew].
  split; [|split].
  - apply in_pending_by_merit. split; [|reflexivity].
    simpl. apply in_or_app. right. now left.
  - cbn [handle]. unfold student_signin_required, application_status.
    rewrite Hs, Hnew. reflexivity.
  - intros Hfits. apply stored_form_fits in Hfits. congruence.
Qed.

Lemma submitted_application_is_pending_witness :
  In (new_application 7 sample_upload 1)
     (pending_by_merit
        (database_after empty_database
           (handle delivers (student_session 7)
              (application_form_request (Some sample_upload)) empty_database))).
Proof.
  exact (proj1 (submitted_application_is_pending delivers delivers (student_session 7)
                  7 "student" sample_upload sample_upload empty_database
                  eq_refl eq_refl eq_refl)).
Defined.

(** X20. An approval puts the application on the merit list of its
    department exactly when it gets a seat: with [filled_seats] below
    [total_seats] the application's id is on that list afterwards; otherwise
    every merit list holds the ids it held before. *)
Theorem approval_with_seat_enters_merit_list mail s db student_id a d :
  first (applications_of_student student_id db) = Some a ->
  first (departments_named (Application.department a) db) = Some d ->
  let db' := reviewed mail student_id "Approved" s db in
  (Department.filled_seats d < Department.total_seats d ->
   In (Application.application_id a)
      (map Application.application_id (allocated_by_merit (Application.department a) db')))
  /\ (Department.total_seats d <= Department.filled_seats d ->
      forall dept x,
        In x (map Application.application_id (allocated_by_merit dept db'))
        <-> In x (map Application.application_id (allocated_by_merit dept db))).
Proof.
  intros Ha Hd. cbv zeta.
  set (f := fun a0 => if Application.application_id a0 =? Application.application_id a
                      then Application.set_document_status "Approved" a0 else a0).
  assert (Hdb : reviewed mail student_id "Approved" s db
                = if Department.filled_seats d <? Department.total_seats d
                  then add_allocation (Application.application_id a)
                         (Department.department_id d) "Allocated"
                         (increment_filled_seats d (update_document_status a "Approved" db))
                  else add_allocation (Application.application_id a)
                         (Department.department_id d) "Not Allocated"
                         (update_document_status a "Approved" db)).
  { unfold reviewed, approve_documents. rewrite Ha. simpl. rewrite Hd.
    now destruct (Department.filled_seats d <? Department.total_seats d). }
  rewrite Hdb. apply found_application in Ha. destruct Ha as [Hin _]. split.
  - intros Hfree. apply Z.ltb_lt in Hfree. rewrite Hfree.
    apply in_allocated_by_merit_ids.
    exists (f a),
      (Allocation.mk (allocations_serial db) (Application.application_id a)
         (Department.department_id d) "Allocated").
    split; [simpl; now apply (in_map f)|].
    split; [simpl; apply in_or_app; right; now left|].
    unfold f. rewrite Z.eqb_refl. simpl. auto.
  - intros Hfull dept x. apply Z.ltb_ge in Hfull. rewrite Hfull.
    rewrite !in_allocated_by_merit_ids. split.
    + intros [row' [al [Hrow [Hal H]]]]. apply in_update_document_status in Hrow.
      destruct Hrow as [row [Hrow [Hid [_ [Hdep _]]]]].
      simpl in Hal. apply in_app_iff in Hal. destruct Hal as [Hal|[<-|[]]].
      * exists row, al. rewrite <- Hid, <- Hdep. tauto.
      * simpl in H. destruct H as [_ [_ [_ H]]]. discriminate H.
    + intros [row [al [Hrow [Hal H]]]]. exists (f row), al.
      split; [simpl; now apply (in_map f)|].
      split; [simpl; apply in_or_app; now left|].
      unfold f. now destruct (Application.application_id row =? _).
Qed.

Lemma approval_with_seat_enters_merit_list_witness :
  In 1 (map Application.application_id
          (allocated_by_merit "CS" (reviewed bounces 7 "Approved" admin_session last_seat))).
Proof.
  refine (proj1 (approval_with_seat_enters_merit_list bounces admin_session last_seat 7
                   (new_application 7 (sample_form "CS" 80 70 60 20) 1)
                   (Department.mk 1 "CS" 1 0) eq_refl eq_refl) _).
  simpl. lia.
Defined.
